(** * Weather workstation: the acquisition, calibration and dispatch pipeline

    A shallow embedding of the two scripts of the repository:
    - [backend.py], the live pipeline (serial line in, calibrated reading out
      to a CSV file and an MQTT broker);
    - [tempCodeRunnerFile.py], the simulated pipeline (random sensors, threshold
      verdicts, latest-wins processing).

    Modelling conventions.
    - Python [int] is [Z]; Python [float] is the primitive binary64 [float];
      a Python [str] is the [string] of its UTF-8 bytes.
    - A computation that can raise is a [result]; the exception is a value.
    - The infinite [while True] loops are modelled by their body, one
      iteration at a time, as a function on an explicit state; clock readings
      and transport reads are inputs of the iteration.
    - Globals ([data_queue], the CSV file, the MQTT client, the log) are the
      fields of a state record. *)

From Stdlib Require Import ZArith Lia Bool List Ascii String Floats.
From stdpp Require Import gmap strings list.

Set Warnings "-inexact-float,-register-all".

(* ===================================================================== *)
(** * Python values, exceptions and the builtins the scripts call        *)
(* ===================================================================== *)

Module Py.

(** Exceptions the modelled code can raise. *)
Inductive exn : Type :=
| KeyError (key : string)
| TypeError
| ValueError
| OverflowError
| ZeroDivisionError
| JSONDecodeError
| RecursionError
| FileExistsError.

Inductive result (A : Type) : Type :=
| Ok (a : A)
| Raise (e : exn).
Arguments Ok {A} a.
Arguments Raise {A} e.

#[global] Instance result_ret : MRet result := fun A a => Ok a.
#[global] Instance result_bind : MBind result := fun A B f m =>
  match m with
  | Ok a => f a
  | Raise e => Raise e
  end.
#[global] Instance result_fmap : FMap result := fun A B f m =>
  match m with
  | Ok a => Ok (f a)
  | Raise e => Raise e
  end.

(** [try: ... except: handler]: any exception selects the handler. *)
Definition try_except {A} (body : result A) (handler : exn -> A) : A :=
  match body with
  | Ok a => a
  | Raise e => handler e
  end.

(** The values [json.loads] can return.  A [dict] keeps its items in insertion
    order, one item per key. *)
Inductive pyval : Type :=
| PyNone
| PyBool (b : bool)
| PyInt (n : Z)
| PyFloat (f : float)
| PyStr (s : string)
| PyList (l : list pyval)
| PyDict (d : list (string * pyval)).

(** [d[k]] on a dict's items. *)
Fixpoint dict_lookup {V} (k : string) (d : list (string * V)) : option V :=
  match d with
  | [] => None
  | (k', v) :: d' => if decide (k = k') then Some v else dict_lookup k d'
  end.

(** [d[k] = v]: overwrite in place, or append a new item. *)
Fixpoint dict_set {V} (k : string) (v : V) (d : list (string * V)) : list (string * V) :=
  match d with
  | [] => [(k, v)]
  | (k', v') :: d' => if decide (k = k') then (k', v) :: d' else (k', v') :: dict_set k v d'
  end.

(** [data[key]]: subscripting; only a dict can be indexed by a string. *)
Definition getitem (data : pyval) (key : string) : result pyval :=
  match data with
  | PyDict d =>
      match dict_lookup key d with
      | Some v => Ok v
      | None => Raise (KeyError key)
      end
  | _ => Raise TypeError
  end.

(** ** Floats *)

(** The binary64 value nearest to [n / d] (ties to even), with the sign
    [neg].  This is the rounding of [int / int], of [float(str)] and of the
    last step of [round]. *)
Definition float_of_ratio (neg : bool) (n d : positive) : float :=
  let '(q, e, l) := SFdiv_core_binary prec emax (Zpos n) 0 (Zpos d) 0 in
  SF2Prim (binary_round_aux prec emax neg q e l).

Definition signed_zero (neg : bool) : float :=
  if neg then neg_zero else zero.

(** [float(n)] for an int [n]. *)
Definition float_of_Z (n : Z) : float :=
  match n with
  | Z0 => zero
  | Zpos p => float_of_ratio false p 1
  | Zneg p => float_of_ratio true p 1
  end.

(** [a / b] on two ints: the correctly rounded quotient. *)
Definition int_truediv (a b : Z) : result float :=
  match a, b with
  | _, Z0 => Raise ZeroDivisionError
  | Z0, _ => Ok (signed_zero (b <? 0)%Z)
  | Zpos n, Zpos d => Ok (float_of_ratio false n d)
  | Zneg n, Zneg d => Ok (float_of_ratio false n d)
  | Zpos n, Zneg d => Ok (float_of_ratio true n d)
  | Zneg n, Zpos d => Ok (float_of_ratio true n d)
  end.

(** [num / den] rounded to the nearest integer, ties to even ([den > 0]). *)
Definition round_half_even (num den : Z) : Z :=
  let q := (num / den)%Z in
  let r := (num mod den)%Z in
  match (2 * r ?= den)%Z with
  | Lt => q
  | Gt => (q + 1)%Z
  | Eq => if Z.even q then q else (q + 1)%Z
  end.

(** The integer [k] with [k / 10^ndigits] the decimal nearest to [x]
    (ties to even, on the exact binary value of [x]); [None] for nan and the
    infinities. *)
Definition decimal_units (x : float) (ndigits : nat) : option Z :=
  match Prim2SF x with
  | S754_zero _ => Some 0%Z
  | S754_finite s m e =>
      let p10 := (10 ^ Z.of_nat ndigits)%Z in
      let num := (Zpos m * p10 * 2 ^ Z.max e 0)%Z in
      let den := (2 ^ Z.max (- e) 0)%Z in
      let k := round_half_even num den in
      Some (if s then (- k)%Z else k)
  | _ => None
  end.

(** [round(x, ndigits)] for a float [x] and [ndigits >= 0]: the float nearest
    to the correctly rounded decimal. *)
Definition round (x : float) (ndigits : nat) : float :=
  let p10 := Z.to_pos (10 ^ Z.of_nat ndigits) in
  match decimal_units x ndigits with
  | Some Z0 => signed_zero (get_sign x)
  | Some (Zpos k) => float_of_ratio false k p10
  | Some (Zneg k) => float_of_ratio true k p10
  | None => x
  end.

(** ** [int(x)] *)

(** [int(f)] for a float: truncation towards zero. *)
Definition int_of_float (f : float) : result Z :=
  match Prim2SF f with
  | S754_nan => Raise ValueError
  | S754_infinity _ => Raise OverflowError
  | S754_zero _ => Ok 0%Z
  | S754_finite s m e =>
      let a := (if (0 <=? e)%Z then Zpos m * 2 ^ e else Zpos m / 2 ^ (- e))%Z in
      Ok (if s then (- a)%Z else a)
  end.

Definition is_digit (c : ascii) : bool :=
  (48 <=? nat_of_ascii c)%nat && (nat_of_ascii c <=? 57)%nat.

Definition digit_value (c : ascii) : Z :=
  (Z.of_nat (nat_of_ascii c) - 48)%Z.

(** The whitespace [int(str)] skips on ASCII text: tab, newline, vertical
    tab, form feed, carriage return and space. *)
Definition is_space (c : ascii) : bool :=
  let n := nat_of_ascii c in
  ((9 <=? n)%nat && (n <=? 13)%nat) || (n =? 32)%nat.

Fixpoint skip_spaces (s : string) : string :=
  match s with
  | String c rest => if is_space c then skip_spaces rest else s
  | EmptyString => s
  end.

(** Where the scan of a decimal literal stands: nothing read yet, after a
    digit, or after an underscore. *)
Inductive digit_state : Type := AtStart | AfterDigit | AfterUnderscore.

(** Decimal digits with single underscores between digits, then optional
    trailing whitespace up to the end of the text. *)
Fixpoint scan_digits (s : string) (acc : Z) (st : digit_state) : option Z :=
  match s with
  | EmptyString =>
      match st with AfterDigit => Some acc | _ => None end
  | String c rest =>
      if is_digit c then scan_digits rest (acc * 10 + digit_value c)%Z AfterDigit
      else if Ascii.eqb c "_" then
        match st with
        | AfterDigit => scan_digits rest acc AfterUnderscore
        | _ => None
        end
      else if is_space c then
        match st, skip_spaces rest with
        | AfterDigit, EmptyString => Some acc
        | _, _ => None
        end
      else None
  end.

(** [int(s)] for a str, base 10.  The model reads ASCII text; a character
    outside ASCII makes it fail (Python would also accept Unicode spaces and
    decimal digits), and the digit limit of recent CPython on very long
    literals is not modelled. *)
Definition int_of_str (s : string) : result Z :=
  let body := skip_spaces s in
  let '(neg, digits) :=
    match body with
    | String "-" rest => (true, rest)
    | String "+" rest => (false, rest)
    | _ => (false, body)
    end in
  match scan_digits digits 0 AtStart with
  | Some n => Ok (if neg then (- n)%Z else n)
  | None => Raise ValueError
  end.

(** [int(raw)] on a decoded JSON value. *)
Definition int (raw : pyval) : result Z :=
  match raw with
  | PyNone => Raise TypeError
  | PyBool b => Ok (if b then 1 else 0)%Z
  | PyInt n => Ok n
  | PyFloat f => int_of_float f
  | PyStr s => int_of_str s
  | PyList _ => Raise TypeError
  | PyDict _ => Raise TypeError
  end.

(** ** [str] methods *)

(** [s.startswith(p)] and [s.endswith(p)]. *)
Fixpoint startswith (s p : string) : bool :=
  match p, s with
  | EmptyString, _ => true
  | String a p', String b s' => Ascii.eqb a b && startswith s' p'
  | String _ _, EmptyString => false
  end.

Definition endswith (s p : string) : bool :=
  startswith (String.rev s) (String.rev p).

(** The characters [str.strip()] removes, by their UTF-8 bytes.  One byte:
    U+0009 to U+000D, U+001C to U+0020. *)
Definition space1 (a : ascii) : bool :=
  let n := nat_of_ascii a in
  ((9 <=? n) && (n <=? 13) || (28 <=? n) && (n <=? 32))%nat.

(** Two bytes: U+0085 and U+00A0. *)
Definition space2 (a b : ascii) : bool :=
  let '(x, y) := (nat_of_ascii a, nat_of_ascii b) in
  ((x =? 194) && ((y =? 133) || (y =? 160)))%nat.

(** Three bytes: U+1680, U+2000 to U+200A, U+2028, U+2029, U+202F, U+205F
    and U+3000. *)
Definition space3 (a b c : ascii) : bool :=
  let '(x, y, z) := (nat_of_ascii a, nat_of_ascii b, nat_of_ascii c) in
  ((x =? 225) && (y =? 154) && (z =? 128)
   || (x =? 226) && (y =? 128)
      && ((128 <=? z) && (z <=? 138) || (z =? 168) || (z =? 169) || (z =? 175))
   || (x =? 226) && (y =? 129) && (z =? 159)
   || (x =? 227) && (y =? 128) && (z =? 128))%nat.

Fixpoint lstrip (s : string) : string :=
  match s with
  | String a r1 =>
      if space1 a then lstrip r1
      else
        match r1 with
        | String b r2 =>
            if space2 a b then lstrip r2
            else
              match r2 with
              | String c r3 => if space3 a b c then lstrip r3 else s
              | EmptyString => s
              end
        | EmptyString => s
        end
  | EmptyString => s
  end.

(** [lstrip] on the reversed text: the bytes of a character arrive last
    byte first. *)
Fixpoint lstrip_reversed (s : string) : string :=
  match s with
  | String a r1 =>
      if space1 a then lstrip_reversed r1
      else
        match r1 with
        | String b r2 =>
            if space2 b a then lstrip_reversed r2
            else
              match r2 with
              | String c r3 => if space3 c b a then lstrip_reversed r3 else s
              | EmptyString => s
              end
        | EmptyString => s
        end
  | EmptyString => s
  end.

Definition rstrip (s : string) : string :=
  String.rev (lstrip_reversed (String.rev s)).

(** [s.strip()]. *)
Definition strip (s : string) : string := rstrip (lstrip s).

End Py.

(* ===================================================================== *)
(** * [json.loads]                                                        *)
(* ===================================================================== *)

(** The decoder of the standard library, as the serial reader calls it:
    default arguments, strict mode.  Every failure is a [JSONDecodeError];
    the model does not carry the message.  Two limits of CPython are not
    modelled: the interpreter's recursion limit on deeply nested documents
    (the model decodes any depth) and the digit limit of [int] on very long
    integer literals. *)
Module Json.
Import Py.

(** Characters are tested by code: 34 is the double quote, 44 the comma,
    58 the colon, 91 and 93 the square brackets, 92 the backslash, 117 the
    letter u, 123 and 125 the braces. *)
Definition char_code (c : ascii) : N := N_of_ascii c.

(** The decoder's whitespace: space, tab, newline, carriage return. *)
Definition is_ws (c : ascii) : bool :=
  let n := char_code c in
  ((n =? 32) || (n =? 9) || (n =? 10) || (n =? 13))%N.

Fixpoint skip_ws (s : string) : string :=
  match s with
  | String c rest => if is_ws c then skip_ws rest else s
  | EmptyString => s
  end.

(** [after_prefix p s]: what follows [p] in [s], when [s] starts with [p]. *)
Fixpoint after_prefix (p s : string) : option string :=
  match p, s with
  | EmptyString, _ => Some s
  | String a p', String b s' => if Ascii.eqb a b then after_prefix p' s' else None
  | String _ _, EmptyString => None
  end.

(** *** String literals *)

Definition hex_value (c : ascii) : option N :=
  let n := char_code c in
  if ((48 <=? n) && (n <=? 57))%N then Some (n - 48)%N
  else if ((65 <=? n) && (n <=? 70))%N then Some (n - 55)%N
  else if ((97 <=? n) && (n <=? 102))%N then Some (n - 87)%N
  else None.

Definition hex4 (a b c d : ascii) : option N :=
  x1 ← hex_value a; x2 ← hex_value b; x3 ← hex_value c; x4 ← hex_value d;
  Some (((x1 * 16 + x2) * 16 + x3) * 16 + x4)%N.

Definition byte (n : N) : ascii := ascii_of_N n.

(** The UTF-8 bytes of a code point (a lone surrogate is written in the same
    three-byte form). *)
Definition utf8_encode (cp : N) : string :=
  if (cp <? 128)%N then String (byte cp) EmptyString
  else if (cp <? 2048)%N then
    String (byte (192 + cp / 64)) (String (byte (128 + cp mod 64)) EmptyString)
  else if (cp <? 65536)%N then
    String (byte (224 + cp / 4096))
      (String (byte (128 + (cp / 64) mod 64))
         (String (byte (128 + cp mod 64)) EmptyString))
  else
    String (byte (240 + cp / 262144))
      (String (byte (128 + (cp / 4096) mod 64))
         (String (byte (128 + (cp / 64) mod 64))
            (String (byte (128 + cp mod 64)) EmptyString))).

Definition is_high_surrogate (cp : N) : bool := ((55296 <=? cp) && (cp <=? 56319))%N.
Definition is_low_surrogate (cp : N) : bool := ((56320 <=? cp) && (cp <=? 57343))%N.
Definition join_surrogates (hi lo : N) : N :=
  (65536 + (hi - 55296) * 1024 + (lo - 56320))%N.

(** The one-character escapes. *)
Definition simple_escape (c : ascii) : option ascii :=
  let n := char_code c in
  if (n =? 34)%N then Some c            (* quote *)
  else if (n =? 92)%N then Some c       (* backslash *)
  else if (n =? 47)%N then Some c       (* slash *)
  else if (n =? 98)%N then Some (byte 8)
  else if (n =? 102)%N then Some (byte 12)
  else if (n =? 110)%N then Some (byte 10)
  else if (n =? 114)%N then Some (byte 13)
  else if (n =? 116)%N then Some (byte 9)
  else None.

Definition prepend (p : string) (r : result (string * string)) : result (string * string) :=
  '(str, rest) ← r; Ok (p +:+ str, rest).

(** [scanstring]: the text after an opening quote; returns the decoded string
    and what follows the closing quote. *)
Fixpoint scanstring (s : string) : result (string * string) :=
  match s with
  | EmptyString => Raise JSONDecodeError
  | String c rest =>
      if (char_code c =? 34)%N then Ok (EmptyString, rest)
      else if (char_code c =? 92)%N then
        match rest with
        | EmptyString => Raise JSONDecodeError
        | String e rest1 =>
            if (char_code e =? 117)%N then
              match rest1 with
              | String h1 (String h2 (String h3 (String h4 rest2))) =>
                  match hex4 h1 h2 h3 h4 with
                  | None => Raise JSONDecodeError
                  | Some cp =>
                      if is_high_surrogate cp then
                        match rest2 with
                        | String b (String u rest3) =>
                            if ((char_code b =? 92) && (char_code u =? 117))%N then
                              match rest3 with
                              | String g1 (String g2 (String g3 (String g4 rest4))) =>
                                  match hex4 g1 g2 g3 g4 with
                                  | None => Raise JSONDecodeError
                                  | Some cp2 =>
                                      if is_low_surrogate cp2
                                      then prepend (utf8_encode (join_surrogates cp cp2))
                                                   (scanstring rest4)
                                      else prepend (utf8_encode cp) (scanstring rest2)
                                  end
                              | _ => Raise JSONDecodeError
                              end
                            else prepend (utf8_encode cp) (scanstring rest2)
                        | _ => prepend (utf8_encode cp) (scanstring rest2)
                        end
                      else prepend (utf8_encode cp) (scanstring rest2)
                  end
              | _ => Raise JSONDecodeError
              end
            else
              match simple_escape e with
              | Some ch => prepend (String ch EmptyString) (scanstring rest1)
              | None => Raise JSONDecodeError
              end
        end
      else if (char_code c <? 32)%N then Raise JSONDecodeError
      else prepend (String c EmptyString) (scanstring rest)
  end.

(** *** Numbers *)

(** The leading decimal digits of [s]: their value, their count, the rest. *)
Fixpoint span_digits (s : string) (acc : Z) (count : nat) : Z * nat * string :=
  match s with
  | String c rest =>
      if is_digit c then span_digits rest (acc * 10 + digit_value c)%Z (S count)
      else (acc, count, s)
  | EmptyString => (acc, count, s)
  end.

(** [float] of the decimal [m * 10^e10], correctly rounded. *)
Definition float_of_decimal (neg : bool) (m : Z) (e10 : Z) : float :=
  match m with
  | Zpos p =>
      if (0 <=? e10)%Z
      then float_of_ratio neg (Z.to_pos (Zpos p * 10 ^ e10)) 1
      else float_of_ratio neg p (Z.to_pos (10 ^ (- e10)))
  | _ => signed_zero neg
  end.

(** The integer part of a number: [0], or a non-zero digit and more digits. *)
Definition integer_part (s : string) : option (Z * string) :=
  match s with
  | String c rest =>
      if Ascii.eqb c "0" then Some (0%Z, rest)
      else if is_digit c then
        let '(n, _, rest') := span_digits s 0 0 in Some (n, rest')
      else None
  | EmptyString => None
  end.

(** An optional fraction: a dot and at least one digit. *)
Definition fraction_part (s : string) : option (Z * nat * string) :=
  match s with
  | String c rest =>
      if Ascii.eqb c "." then
        let '(n, count, rest') := span_digits rest 0 0 in
        match count with O => None | S _ => Some (n, count, rest') end
      else None
  | EmptyString => None
  end.

(** An optional exponent: [e] or [E], an optional sign, at least one digit. *)
Definition exponent_part (s : string) : option (Z * string) :=
  match s with
  | String c rest =>
      if Ascii.eqb c "e" || Ascii.eqb c "E" then
        let '(neg, digits) :=
          match rest with
          | String sg rest' =>
              if Ascii.eqb sg "-" then (true, rest')
              else if Ascii.eqb sg "+" then (false, rest')
              else (false, rest)
          | EmptyString => (false, rest)
          end in
        let '(n, count, rest') := span_digits digits 0 0 in
        match count with
        | O => None
        | S _ => Some (if neg then (- n)%Z else n, rest')
        end
      else None
  | EmptyString => None
  end.

(** The digits of a number literal, after its sign: an int when there is
    neither fraction nor exponent, a float otherwise. *)
Definition number_of (neg : bool) (body : string) : result (pyval * string) :=
  match integer_part body with
  | None => Raise JSONDecodeError
  | Some (ip, r1) =>
      let '(fdigits, fcount, r2, has_frac) :=
        match fraction_part r1 with
        | Some (f, count, r) => (f, count, r, true)
        | None => (0%Z, O, r1, false)
        end in
      let '(ex, r3, has_exp) :=
        match exponent_part r2 with
        | Some (e, r) => (e, r, true)
        | None => (0%Z, r2, false)
        end in
      if has_frac || has_exp then
        let m := (ip * 10 ^ Z.of_nat fcount + fdigits)%Z in
        Ok (PyFloat (float_of_decimal neg m (ex - Z.of_nat fcount)), r3)
      else Ok (PyInt (if neg then - ip else ip)%Z, r3)
  end.

(** A number literal, with its optional minus sign. *)
Definition match_number (s : string) : result (pyval * string) :=
  match s with
  | String c rest => if Ascii.eqb c "-" then number_of true rest else number_of false s
  | EmptyString => number_of false s
  end.

(** *** Values *)

(** [scan_once]: one value at the head of [s] and what follows it.  [fuel]
    bounds the nesting and the number of items; [loads] gives more than the
    text can use, so the RecursionError of an exhausted [fuel] never shows
    (lemma [loads_fuel_suffices] below). *)
Fixpoint scan_once (fuel : nat) (s : string) : result (pyval * string) :=
  match fuel with
  | O => Raise RecursionError
  | S fuel' =>
      match s with
      | EmptyString => Raise JSONDecodeError
      | String c rest =>
          let n := char_code c in
          if (n =? 34)%N then
            '(str, rest') ← scanstring rest; Ok (PyStr str, rest')
          else if (n =? 123)%N then
            match skip_ws rest with
            | String c1 rest1 =>
                if (char_code c1 =? 125)%N then Ok (PyDict [], rest1)
                else if (char_code c1 =? 34)%N then parse_pairs fuel' rest1 []
                else Raise JSONDecodeError
            | EmptyString => Raise JSONDecodeError
            end
          else if (n =? 91)%N then
            match skip_ws rest with
            | String c1 rest1 =>
                if (char_code c1 =? 93)%N then Ok (PyList [], rest1)
                else parse_items fuel' (String c1 rest1) []
            | EmptyString => Raise JSONDecodeError
            end
          else
            match after_prefix "null" s, after_prefix "true" s, after_prefix "false" s with
            | Some r, _, _ => Ok (PyNone, r)
            | _, Some r, _ => Ok (PyBool true, r)
            | _, _, Some r => Ok (PyBool false, r)
            | _, _, _ =>
                match after_prefix "NaN" s, after_prefix "Infinity" s,
                      after_prefix "-Infinity" s with
                | Some r, _, _ => Ok (PyFloat nan, r)
                | _, Some r, _ => Ok (PyFloat infinity, r)
                | _, _, Some r => Ok (PyFloat neg_infinity, r)
                | _, _, _ => match_number s
                end
            end
      end
  end
(** The members of an object, from just after the opening quote of a key;
    [acc] holds the items read so far (a repeated key overwrites). *)
with parse_pairs (fuel : nat) (s : string) (acc : list (string * pyval))
  : result (pyval * string) :=
  match fuel with
  | O => Raise RecursionError
  | S fuel' =>
      '(key, r1) ← scanstring s;
      match skip_ws r1 with
      | String colon r2 =>
          if (char_code colon =? 58)%N then
            '(v, r3) ← scan_once fuel' (skip_ws r2);
            let acc' := dict_set key v acc in
            match skip_ws r3 with
            | String c r4 =>
                if (char_code c =? 125)%N then Ok (PyDict acc', r4)
                else if (char_code c =? 44)%N then
                  match skip_ws r4 with
                  | String q r5 =>
                      if (char_code q =? 34)%N then parse_pairs fuel' r5 acc'
                      else Raise JSONDecodeError
                  | EmptyString => Raise JSONDecodeError
                  end
                else Raise JSONDecodeError
            | EmptyString => Raise JSONDecodeError
            end
          else Raise JSONDecodeError
      | EmptyString => Raise JSONDecodeError
      end
  end
(** The elements of an array, from the first character of an element. *)
with parse_items (fuel : nat) (s : string) (acc : list pyval)
  : result (pyval * string) :=
  match fuel with
  | O => Raise RecursionError
  | S fuel' =>
      '(v, r1) ← scan_once fuel' s;
      let acc' := acc ++ [v] in
      match skip_ws r1 with
      | String c r2 =>
          if (char_code c =? 93)%N then Ok (PyList acc', r2)
          else if (char_code c =? 44)%N then parse_items fuel' (skip_ws r2) acc'
          else Raise JSONDecodeError
      | EmptyString => Raise JSONDecodeError
      end
  end.

(** [json.loads(s)]: one value, whitespace around it, nothing else. *)
Definition loads (s : string) : result pyval :=
  '(v, rest) ← scan_once (S (2 * String.length s)) (skip_ws s);
  match skip_ws rest with
  | EmptyString => Ok v
  | String _ _ => Raise JSONDecodeError
  end.

End Json.

(* ===================================================================== *)
(** * backend.py: the live pipeline                                       *)
(* ===================================================================== *)

Module Backend.
Import Py.

(** ** Sensor calibration *)

(** [calibrate(raw)]: [None] when [int(raw)] raises, else the value clamped
    to [0, 1023]. *)
Definition calibrate (raw : pyval) : option Z :=
  match int raw with
  | Raise _ => None
  | Ok r =>
      let r := if (r <? 0)%Z then 0%Z else r in
      let r := if (r >? 1023)%Z then 1023%Z else r in
      Some r
  end.

(** The dict [convert_values] returns: nine fixed keys. *)
Record CalibratedReading : Type := {
  Temperature : float;
  Humidity : float;
  CO2 : float;
  Oxygen : float;
  UV_Index : float;
  Solar_Radiation : float;
  Air_Quality : float;
  GSR : float;
  Atmospheric_Pressure : float
}.

(** [v / 1023] where [v] is what [calibrate] returned: [None / 1023] is a
    TypeError. *)
Definition div_1023 (v : option Z) : result float :=
  match v with
  | Some r => int_truediv r 1023
  | None => Raise TypeError
  end.

(** [round((v / 1023) * channel_max, 2)]. *)
Definition scaled (v : option Z) (channel_max : float) : result float :=
  q ← div_1023 v;
  Ok (round (q * channel_max)%float 2).

(** [convert_values(data)]: the seven lookups and calibrations in source
    order, then the nine values of the dict literal in source order. *)
Definition convert_values (data : pyval) : result CalibratedReading :=
  oxy ← calibrate <$> getitem data "oxygen";
  uv ← calibrate <$> getitem data "uv";
  pres ← calibrate <$> getitem data "pressure";
  solar ← calibrate <$> getitem data "solar";
  th ← calibrate <$> getitem data "temp_humidity";
  co2 ← calibrate <$> getitem data "co2";
  aq ← calibrate <$> getitem data "air_quality";
  temperature ← scaled th 50;
  humidity ← scaled th 100;
  co2_ppm ← scaled co2 2000;
  oxygen ← scaled oxy 21;
  uv_index ← scaled uv 11;
  solar_radiation ← scaled solar 1200;
  air_quality ← scaled aq 500;
  gsr ← scaled solar 100;
  pressure ← scaled pres 1100;
  Ok {| Temperature := temperature;
        Humidity := humidity;
        CO2 := co2_ppm;
        Oxygen := oxygen;
        UV_Index := uv_index;
        Solar_Radiation := solar_radiation;
        Air_Quality := air_quality;
        GSR := gsr;
        Atmospheric_Pressure := pressure |}.

(** ** Logging *)

Inductive level : Type := INFO | WARNING | ERROR.

(** What a log call records; the formatted text is not modelled. *)
Inductive log_event : Type :=
| MqttConnected
| MqttFailed (rc : Z)
| MqttDisconnected
| MqttConnectionError (e : exn)
| MqttNotConnectedSkippingPublish
| SerialConnected
| SerialError (e : exn)
| BadJson (line : string)
| SerialReadError (e : exn)
| Calibrated (reading : CalibratedReading).

Definition log_record : Type := level * log_event.

(** ** MQTT client *)

Section MQTT.
(** What is handed to the broker library as payload. *)
Context {Payload : Type}.

(** The wrapper object: its [connected] flag, and, for the wrapped
    [mqtt.Client], whether its network loop was started and the messages
    passed to its [publish]. *)
Record MQTTClient : Type := {
  connected : bool;
  loop_started : bool;
  sent : list (string * Payload)
}.

(** [MQTTClient()]. *)
Definition init : MQTTClient :=
  {| connected := false; loop_started := false; sent := [] |}.

(** [_on_connect(client, userdata, flags, rc)]. *)
Definition _on_connect (self : MQTTClient) (rc : Z) : MQTTClient * list log_record :=
  let c := (rc =? 0)%Z in
  ({| connected := c; loop_started := loop_started self; sent := sent self |},
   [(INFO, if c then MqttConnected else MqttFailed rc)]).

(** [_on_disconnect(client, userdata, rc)]. *)
Definition _on_disconnect (self : MQTTClient) (rc : Z) : MQTTClient * list log_record :=
  ({| connected := false; loop_started := loop_started self; sent := sent self |},
   [(WARNING, MqttDisconnected)]).

(** [start()]; [connect_outcome] is what [client.connect] did. *)
Definition start (self : MQTTClient) (connect_outcome : result unit)
  : MQTTClient * list log_record :=
  match connect_outcome with
  | Ok _ =>
      ({| connected := connected self; loop_started := true; sent := sent self |}, [])
  | Raise e => (self, [(ERROR, MqttConnectionError e)])
  end.

(** [publish(topic, payload)]. *)
Definition publish (self : MQTTClient) (topic : string) (payload : Payload)
  : MQTTClient * list log_record :=
  if connected self then
    ({| connected := connected self;
        loop_started := loop_started self;
        sent := sent self ++ [(topic, payload)] |}, [])
  else (self, [(WARNING, MqttNotConnectedSkippingPublish)]).

(** Everything that can happen to the client: the two callbacks of the
    library and the two methods the program calls. *)
Inductive mqtt_event : Type :=
| OnConnect (rc : Z)
| OnDisconnect (rc : Z)
| Start (connect_outcome : result unit)
| Publish (topic : string) (payload : Payload).

Definition mqtt_step (self : MQTTClient) (ev : mqtt_event) : MQTTClient * list log_record :=
  match ev with
  | OnConnect rc => _on_connect self rc
  | OnDisconnect rc => _on_disconnect self rc
  | Start o => start self o
  | Publish t p => publish self t p
  end.

(** A run of events from a given client; the log records in order. *)
Fixpoint mqtt_run (self : MQTTClient) (evs : list mqtt_event) : MQTTClient * list log_record :=
  match evs with
  | [] => (self, [])
  | ev :: evs' =>
      let '(c, l) := mqtt_step self ev in
      let '(c', l') := mqtt_run c evs' in
      (c', l ++ l')
  end.
End MQTT.
Arguments MQTTClient : clear implicits.
Arguments mqtt_event : clear implicits.

(** ** CSV file *)

Inductive cell : Type :=
| CStr (s : string)
| CFloat (f : float)
| CNone.

Definition row : Type := list cell.

(** The file at [CSV_FILE]: [None] when the path does not exist, else its
    rows. *)
Definition csv_store : Type := option (list row).

Definition header : row :=
  CStr <$> ["timestamp"; "Temperature"; "Humidity"; "CO2"; "Oxygen";
            "UV Index"; "Solar Radiation"; "Air Quality"; "GSR";
            "Atmospheric Pressure"].

(** [ensure_csv()]. *)
Definition ensure_csv (file : csv_store) : csv_store :=
  match file with
  | None => Some [header]
  | Some rows => Some rows
  end.

(** [write_csv(data)]; [utcnow] is the text of
    [datetime.utcnow().isoformat()].  Opening for append creates a missing
    file. *)
Definition write_csv (utcnow : string) (data : CalibratedReading) (file : csv_store)
  : csv_store :=
  let r := [CStr utcnow;
            CFloat (Temperature data);
            CFloat (Humidity data);
            CFloat (CO2 data);
            CFloat (Oxygen data);
            CFloat (UV_Index data);
            CFloat (Solar_Radiation data);
            CFloat (Air_Quality data);
            CFloat (GSR data);
            CFloat (Atmospheric_Pressure data)] in
  Some (default [] file ++ [r]).

(** ** Globals *)

(** The two JSON documents the processor publishes, before [json.dumps]. *)
Inductive document : Type :=
| ReadingDoc (calibrated : CalibratedReading)
| HeartbeatDoc (ts : float) (status : string).

Record World : Type := {
  data_queue : list pyval;
  csv_file : csv_store;
  mqtt_client : MQTTClient document;
  log : list log_record
}.

Definition logging (records : list log_record) (w : World) : World :=
  {| data_queue := data_queue w;
     csv_file := csv_file w;
     mqtt_client := mqtt_client w;
     log := log w ++ records |}.

Definition put (data : pyval) (w : World) : World :=
  {| data_queue := data_queue w ++ [data];
     csv_file := csv_file w;
     mqtt_client := mqtt_client w;
     log := log w |}.

Definition with_queue (q : list pyval) (w : World) : World :=
  {| data_queue := q;
     csv_file := csv_file w;
     mqtt_client := mqtt_client w;
     log := log w |}.

Definition with_csv (f : csv_store) (w : World) : World :=
  {| data_queue := data_queue w;
     csv_file := f;
     mqtt_client := mqtt_client w;
     log := log w |}.

(** [mqtt_client.publish(topic, payload)] on the global client. *)
Definition world_publish (topic : string) (payload : document) (w : World) : World :=
  let '(c, records) := publish (mqtt_client w) topic payload in
  {| data_queue := data_queue w;
     csv_file := csv_file w;
     mqtt_client := c;
     log := log w ++ records |}.

Definition TOPIC : string := "weather/workstation".

(** [STATUS_TOPIC], from the host name. *)
Definition STATUS_TOPIC (hostname : string) : string :=
  "weather/status/" +:+ hostname.

(** ** Serial reader *)

(** What [ser.readline().decode("utf-8")] gave: the decoded text, or the
    exception one of the two calls raised. *)
Inductive serial_read : Type :=
| Received (text : string)
| ReadFailed (e : exn).

(** One iteration of the [while True] loop of [serial_reader]. *)
Definition serial_reader_iteration (rd : serial_read) (w : World) : World :=
  match rd with
  | ReadFailed e => logging [(ERROR, SerialReadError e)] w
  | Received text =>
      let line := strip text in
      if decide (line = "") then w
      else if negb (startswith line "{") || negb (endswith line "}") then
        logging [(WARNING, BadJson line)] w
      else
        match Json.loads line with
        | Ok data => put data w
        | Raise e => logging [(ERROR, SerialReadError e)] w
        end
  end.

(** [serial_reader()] over the reads of a finite run: the port is opened
    first, and a failure to open ends the thread. *)
Definition serial_reader (open : result unit) (reads : list serial_read) (w : World)
  : World :=
  match open with
  | Raise e => logging [(ERROR, SerialError e)] w
  | Ok _ =>
      foldl (fun w rd => serial_reader_iteration rd w)
            (logging [(INFO, SerialConnected)] w) reads
  end.

(** ** Data processor *)

(** How an iteration of a thread's loop ends: the loop goes on, or an
    exception escaped and ended the thread. *)
Inductive outcome : Type :=
| Continues (w : World)
| Dies (e : exn) (w : World).

(** One iteration of the [while True] loop of [data_processor]; [utcnow]
    and [now] are the two clock readings of the iteration. *)
Definition data_processor_iteration (hostname utcnow : string) (now : float) (w : World)
  : outcome :=
  match data_queue w with
  | [] => Continues w
  | raw :: rest =>
      let w := with_queue rest w in
      match convert_values raw with
      | Raise e => Dies e w
      | Ok calibrated =>
          let w := logging [(INFO, Calibrated calibrated)] w in
          let w := with_csv (write_csv utcnow calibrated (csv_file w)) w in
          let w := world_publish TOPIC (ReadingDoc calibrated) w in
          let w := world_publish (STATUS_TOPIC hostname +:+ "/hb")
                                 (HeartbeatDoc now "ok") w in
          Continues w
      end
  end.

(** [data_processor()] up to its loop: the CSV file is ensured. *)
Definition data_processor_start (w : World) : World :=
  with_csv (ensure_csv (csv_file w)) w.

(** [data_processor()] over the clock readings of a finite run: the file is
    ensured, then the loop iterates until the readings are used up or an
    exception ends the thread. *)
Fixpoint data_processor_loop (hostname : string) (clock : list (string * float))
  (w : World) : outcome :=
  match clock with
  | [] => Continues w
  | (utcnow, now) :: clock' =>
      match data_processor_iteration hostname utcnow now w with
      | Continues w' => data_processor_loop hostname clock' w'
      | Dies e w' => Dies e w'
      end
  end.

Definition data_processor (hostname : string) (clock : list (string * float)) (w : World)
  : outcome :=
  data_processor_loop hostname clock (data_processor_start w).

(** ** The threads together *)

(** The process runs the reader thread, the processor thread and the
    network loop of the broker library, which calls the two callbacks.  The
    threads share the queue, whose [put] and [get] are atomic, and the log;
    a run is modelled as a sequence of turns, each a whole loop iteration or
    one callback. *)
Inductive callback : Type :=
| ConnectCallback (rc : Z)
| DisconnectCallback (rc : Z).

Inductive turn : Type :=
| ReaderTurn (rd : serial_read)
| ProcessorTurn (utcnow : string) (now : float)
| NetworkTurn (cb : callback).

(** The globals, and the exception that ended the processor thread, if one
    did. *)
Record Process : Type := {
  globals : World;
  processor : option exn
}.

Definition world_callback (cb : callback) (w : World) : World :=
  let '(c, records) :=
    match cb with
    | ConnectCallback rc => _on_connect (mqtt_client w) rc
    | DisconnectCallback rc => _on_disconnect (mqtt_client w) rc
    end in
  {| data_queue := data_queue w;
     csv_file := csv_file w;
     mqtt_client := c;
     log := log w ++ records |}.

Definition take_turn (hostname : string) (p : Process) (t : turn) : Process :=
  match t with
  | ReaderTurn rd =>
      {| globals := serial_reader_iteration rd (globals p); processor := processor p |}
  | NetworkTurn cb =>
      {| globals := world_callback cb (globals p); processor := processor p |}
  | ProcessorTurn utcnow now =>
      match processor p with
      | Some _ => p
      | None =>
          match data_processor_iteration hostname utcnow now (globals p) with
          | Continues w => {| globals := w; processor := None |}
          | Dies e w => {| globals := w; processor := Some e |}
          end
      end
  end.

(** The threads started on [w]: the processor ensures the file, then the
    turns are taken in order. *)
Definition run (hostname : string) (w : World) (turns : list turn) : Process :=
  foldl (take_turn hostname)
        {| globals := data_processor_start w; processor := None |} turns.

End Backend.

(* ===================================================================== *)
(** * tempCodeRunnerFile.py: the simulated pipeline                       *)
(* ===================================================================== *)

Module Sim.
Import Py.

Definition MAX_RETRIES : nat := 3.

Definition THRESHOLDS : gmap string Z :=
  {[ "Temperature (°C" := 30%Z;
     "CO2 (ppm)" := 1000%Z;
     "Air Quality (AQI)" := 200%Z ]}.

Definition UNITS : gmap string string :=
  {[ "Temperature (°C)" := "°C";
     "Humidity (%)" := "%";
     "CO2 (ppm)" := "ppm";
     "Oxygen (O2 %)" := "%";
     "UV Index" := "index";
     "Solar Radiation (W/m²)" := "W/m²";
     "Air Quality (AQI)" := "AQI";
     "GSR" := "";
     "Atmospheric Pressure (hPa)" := "hPa" ]}.

(** ** Sensors *)

(** What one call of a sensor's [read_func] did. *)
Inductive attempt : Type :=
| Returns (value : option float)
| Raises (e : exn).

Inductive log_event : Type :=
| SensorError (name : string) (e : exn)
| FailedAfterRetries (name : string) (retries : nat).

(** The [for _ in range(MAX_RETRIES)] loop of [Sensor.read], [n] iterations
    left; [read_func i] is what the [i]-th call does. *)
Fixpoint read_loop (name : string) (read_func : nat -> attempt) (i n : nat)
  : option float * list log_event :=
  match n with
  | O => (None, [FailedAfterRetries name MAX_RETRIES])
  | S n' =>
      match read_func i with
      | Returns (Some value) => (Some value, [])
      | Returns None => read_loop name read_func (S i) n'
      | Raises e =>
          let '(v, l) := read_loop name read_func (S i) n' in
          (v, SensorError name e :: l)
      end
  end.

(** [Sensor(name, read_func).read()]. *)
Definition read (name : string) (read_func : nat -> attempt)
  : option float * list log_event :=
  read_loop name read_func 0 MAX_RETRIES.

(** The names of the [sensors] list, in order. *)
Definition sensors : list string :=
  ["Temperature (°C)"; "Humidity (%)"; "CO2 (ppm)"; "Oxygen (O2 %)";
   "UV Index"; "Solar Radiation (W/m²)"; "Air Quality (AQI)"; "GSR";
   "Atmospheric Pressure (hPa)"].

(** ** Helpers *)

(** [value > limit] for a float and an int. *)
Definition gt_int (value : float) (limit : Z) : bool :=
  (float_of_Z limit <? value)%float.

(** [check_threshold(sensor_name, value)]. *)
Definition check_threshold (sensor_name : string) (value : option float) : string :=
  match value with
  | None => "ERROR"
  | Some v =>
      match THRESHOLDS !! sensor_name with
      | Some limit => if gt_int v limit then "ALERT" else "Normal"
      | None => "Normal"
      end
  end.

(** ** Globals *)

(** A snapshot: the items of the dict, sensor name to reading. *)
Definition snapshot : Type := list (string * option float).

(** What the processor prints: the banner with the time stamp, then one
    line per item of the snapshot with name, value, unit and status. *)
Inductive console_line : Type :=
| Banner (timestamp : string)
| Reading (name : string) (value : option float) (unit : string) (status : string).

Inductive cell : Type :=
| CStr (s : string)
| CValue (v : option float).

Definition row : Type := list cell.

Record World : Type := {
  data_queue : list (string * snapshot);
  csv_file : option (list row);
  published : list (string * snapshot);
  console : list console_line;
  log : list log_event
}.

Definition TOPIC : string := "weather/workstation".

(** ** Sensor reader *)

(** The dict comprehension [{s.name: s.read() for s in sensors}]. *)
Fixpoint read_all (names : list string) (read_funcs : string -> nat -> attempt)
  (acc : snapshot) : snapshot * list log_event :=
  match names with
  | [] => (acc, [])
  | name :: names' =>
      let '(v, l) := read name (read_funcs name) in
      let '(snap, l') := read_all names' read_funcs (dict_set name v acc) in
      (snap, l ++ l')
  end.

(** One iteration of the loop of [sensor_reader]; [now] is the text of
    [datetime.now()]. *)
Definition sensor_reader_iteration (now : string) (read_funcs : string -> nat -> attempt)
  (w : World) : World :=
  let '(snap, l) := read_all sensors read_funcs [] in
  {| data_queue := data_queue w ++ [(now, snap)];
     csv_file := csv_file w;
     published := published w;
     console := console w;
     log := log w ++ l |}.

(** ** Data processor *)

(** [[latest_data[name] for name in names]]. *)
Fixpoint values_of (latest_data : snapshot) (names : list string) : result (list cell) :=
  match names with
  | [] => Ok []
  | name :: names' =>
      match dict_lookup name latest_data with
      | None => Raise (KeyError name)
      | Some v => cells ← values_of latest_data names'; Ok (CValue v :: cells)
      end
  end.

(** The table printed for a snapshot. *)
Definition table (latest_data : snapshot) : list console_line :=
  (fun '(n, v) => Reading n v (default "" (UNITS !! n)) (check_threshold n v))
    <$> latest_data.

Inductive outcome : Type :=
| Continues (w : World)
| Dies (e : exn) (w : World).

(** One iteration of the [while True] loop of [data_processor]: the queue
    is drained into [batch], and the last entry alone is used. *)
Definition data_processor_iteration (w : World) : outcome :=
  let batch := data_queue w in
  match last batch with
  | None => Continues w
  | Some (timestamp, latest_data) =>
      let shown := console w ++ Banner timestamp :: table latest_data in
      match values_of latest_data sensors with
      | Raise e =>
          (* the file was already opened for append, which creates it *)
          Dies e {| data_queue := [];
                    csv_file := Some (default [] (csv_file w));
                    published := published w;
                    console := shown;
                    log := log w |}
      | Ok cells =>
          Continues {| data_queue := [];
                       csv_file := Some (default [] (csv_file w) ++ [CStr timestamp :: cells]);
                       published := published w ++ [(TOPIC, latest_data)];
                       console := shown;
                       log := log w |}
      end
  end.

(** ** Main *)

Definition header : row := CStr "Timestamp" :: (CStr <$> sensors).

(** The [try: open(CSV_FILE, "x") ... except FileExistsError: pass] of the
    main block. *)
Definition create_csv (file : option (list row)) : option (list row) :=
  try_except
    (match file with
     | Some _ => Raise FileExistsError
     | None => Ok (Some [header])
     end)
    (fun _ => file).

(** ** The threads together *)

(** [sensor_reader()] over the ticks of a finite run; a tick gives the clock
    reading and what the sensors do. *)
Definition sensor_reader (ticks : list (string * (string -> nat -> attempt))) (w : World)
  : World :=
  foldl (fun w tick => sensor_reader_iteration tick.1 tick.2 w) w ticks.

(** The two threads take turns, each turn a whole loop iteration. *)
Inductive turn : Type :=
| ReaderTurn (now : string) (read_funcs : string -> nat -> attempt)
| ProcessorTurn.

Fixpoint run (turns : list turn) (w : World) : outcome :=
  match turns with
  | [] => Continues w
  | ReaderTurn now read_funcs :: turns' =>
      run turns' (sensor_reader_iteration now read_funcs w)
  | ProcessorTurn :: turns' =>
      match data_processor_iteration w with
      | Continues w' => run turns' w'
      | Dies e w' => Dies e w'
      end
  end.

End Sim.

(* ===================================================================== *)
(** * Inputs and observations the statements use                         *)
(* ===================================================================== *)

Module Scenario.
Import Py Backend.

(** The snapshot of the end-to-end scenario, as [json.loads] returns it. *)
Definition snapshot : pyval :=
  PyDict [("oxygen", PyInt 512); ("uv", PyInt 93); ("pressure", PyInt 465);
          ("solar", PyInt 850); ("temp_humidity", PyInt 700); ("co2", PyInt 300);
          ("air_quality", PyInt 100)].

(** The reading the scenario is documented to give. *)
Definition documented_reading : CalibratedReading :=
  {| Temperature := 34.21; Humidity := 68.43; CO2 := 586.12; Oxygen := 10.51;
     UV_Index := 1.0; Solar_Radiation := 996.09; Air_Quality := 48.88;
     GSR := 83.01; Atmospheric_Pressure := 499.76 |}.

(** The reading [convert_values] gives. *)
Definition computed_reading : CalibratedReading :=
  {| Temperature := 34.21; Humidity := 68.43; CO2 := 586.51; Oxygen := 10.51;
     UV_Index := 1.0; Solar_Radiation := 997.07; Air_Quality := 48.88;
     GSR := 83.09; Atmospheric_Pressure := 500.0 |}.

(** The text of a JSON object from its keys and the literal text of its
    values. *)
Definition quote : string := String (ascii_of_nat 34) "".

Definition member (item : string * string) : string :=
  quote +:+ item.1 +:+ quote +:+ ": " +:+ item.2.

Fixpoint members (items : list (string * string)) : string :=
  match items with
  | [] => ""
  | [item] => member item
  | item :: items' => member item +:+ ", " +:+ members items'
  end.

Definition object_text (items : list (string * string)) : string :=
  "{" +:+ members items +:+ "}".

(** The serial line of the scenario snapshot, with blanks around it. *)
Definition snapshot_line : string :=
  "  " +:+
  object_text [("oxygen", "512"); ("uv", "93"); ("pressure", "465"); ("solar", "850");
               ("temp_humidity", "700"); ("co2", "300"); ("air_quality", "100")]
  +:+ "  ".

(** A serial line whose oxygen channel is [null]. *)
Definition null_line : string :=
  object_text [("oxygen", "null"); ("uv", "93"); ("pressure", "465"); ("solar", "850");
               ("temp_humidity", "700"); ("co2", "300"); ("air_quality", "100")].

(** A serial line without the oxygen channel. *)
Definition short_line : string :=
  object_text [("uv", "93"); ("pressure", "465"); ("solar", "850");
               ("temp_humidity", "700"); ("co2", "300"); ("air_quality", "100")].

(** A serial line that is an object of another shape. *)
Definition note_line : string :=
  object_text [("note", quote +:+ "hello" +:+ quote)].

(** A second snapshot: every channel at zero. *)
Definition zero_snapshot : pyval :=
  PyDict [("oxygen", PyInt 0); ("uv", PyInt 0); ("pressure", PyInt 0);
          ("solar", PyInt 0); ("temp_humidity", PyInt 0); ("co2", PyInt 0);
          ("air_quality", PyInt 0)].

Definition zero_reading : CalibratedReading :=
  {| Temperature := 0; Humidity := 0; CO2 := 0; Oxygen := 0; UV_Index := 0;
     Solar_Radiation := 0; Air_Quality := 0; GSR := 0; Atmospheric_Pressure := 0 |}.

(** The globals at start-up. *)
Definition initial : World :=
  {| data_queue := []; csv_file := None; mqtt_client := init; log := [] |}.

(** The simulated pipeline with two snapshots queued: every sensor read
    [1.0] at the first tick and [2.0] at the second. *)
Definition sim_snapshot (v : float) : Sim.snapshot :=
  (fun name => (name, Some v)) <$> Sim.sensors.

Definition sim_two_queued : Sim.World :=
  {| Sim.data_queue := [("10:00:00", sim_snapshot 1); ("10:00:01", sim_snapshot 2)];
     Sim.csv_file := Some [Sim.header];
     Sim.published := [];
     Sim.console := [];
     Sim.log := [] |}.

End Scenario.

Module Observe.
Import Py.

(** The seven channels [convert_values] reads, in the order it reads them. *)
Definition channels : list string :=
  ["oxygen"; "uv"; "pressure"; "solar"; "temp_humidity"; "co2"; "air_quality"].

(** A channel of a snapshot is available when it is present and [int]
    accepts its value, that is, when [calibrate] gives a number. *)
Definition available (data : pyval) (key : string) : Prop :=
  exists raw s, getitem data key = Ok raw /\ Backend.calibrate raw = Some s.

(** Whether a row of the live pipeline's file is its header row. *)
Fixpoint texts_are (r : Backend.row) (names : list string) : bool :=
  match r, names with
  | [], [] => true
  | Backend.CStr s :: r', n :: names' => String.eqb s n && texts_are r' names'
  | _, _ => false
  end.

Definition is_header (r : Backend.row) : bool :=
  texts_are r ["timestamp"; "Temperature"; "Humidity"; "CO2"; "Oxygen";
               "UV Index"; "Solar Radiation"; "Air Quality"; "GSR";
               "Atmospheric Pressure"].

(** How many header rows the live pipeline's file holds. *)
Definition header_rows (file : Backend.csv_store) : nat :=
  length (List.filter is_header (default [] file)).

(** The same for the simulated pipeline's file. *)
Fixpoint sim_texts_are (r : Sim.row) (names : list string) : bool :=
  match r, names with
  | [], [] => true
  | Sim.CStr s :: r', n :: names' => String.eqb s n && sim_texts_are r' names'
  | _, _ => false
  end.

Definition sim_is_header (r : Sim.row) : bool :=
  sim_texts_are r ("Timestamp" :: Sim.sensors).

Definition sim_header_rows (file : option (list Sim.row)) : nat :=
  length (List.filter sim_is_header (default [] file)).



(** A decoding step went well when what it leaves is shorter than what it
    was given, and when its only exception is JSONDecodeError (so not the
    RecursionError of an exhausted fuel). *)
Definition scanstring_good (s : string) : Prop :=
  (forall str r, Json.scanstring s = Ok (str, r) -> String.length r < String.length s) /\
  (forall e, Json.scanstring s = Raise e -> e = JSONDecodeError).

Definition decodes_well (s : string) (x : result (pyval * string)) : Prop :=
  (forall v r, x = Ok (v, r) -> String.length r < String.length s) /\
  (forall e, x = Raise e -> e = JSONDecodeError).


(** *** Quantities in hundredths *)

(** The float [round(x, 2)] returns for a rounded decimal of [k]
    hundredths. *)
Definition of_hundredths (k : Z) : float :=
  match k with
  | Z0 => zero
  | Zpos p => float_of_ratio false p 100
  | Zneg p => float_of_ratio true p 100
  end.

(** The rounded quantity of a clamped value [s] on a scale, in hundredths
    (no answer for a negative zero, which [of_hundredths] does not give). *)
Definition scaled_hundredths (s : Z) (channel_max : float) : option Z :=
  match Backend.div_1023 (Some s) with
  | Ok q =>
      let x := (q * channel_max)%float in
      match decimal_units x 2 with
      | Some Z0 => if get_sign x then None else Some 0%Z
      | other => other
      end
  | Raise _ => None
  end.

(** The scales [convert_values] uses, as floats and in hundredths. *)
Definition scales : list (float * Z) :=
  [(50%float, 5000%Z); (100%float, 10000%Z); (2000%float, 200000%Z);
   (21%float, 2100%Z); (11%float, 1100%Z); (1200%float, 120000%Z);
   (500%float, 50000%Z); (1100%float, 110000%Z)].

(** From [s] to [s + 1] the quantity does not decrease, and stays between
    zero and full scale. *)
Definition scale_step_ok (scale : float * Z) (s : Z) : bool :=
  match scaled_hundredths s scale.1, scaled_hundredths (s + 1) scale.1 with
  | Some a, Some b => ((0 <=? a) && (a <=? b) && (b <=? scale.2))%Z
  | _, _ => false
  end.

(** [lo <= x <= hi] on floats. *)
Definition within (lo hi x : float) : bool :=
  ((lo <=? x) && (x <=? hi))%float.

Definition scaled_within (channel_max : float) (s : Z) : bool :=
  match Backend.scaled (Some s) channel_max with
  | Ok x => within 0 channel_max x
  | Raise _ => false
  end.

(** *** The live pipeline *)

Definition is_dict (v : pyval) : Prop :=
  match v with PyDict _ => True | _ => False end.

(** The row [write_csv] appends. *)
Definition row_of (utcnow : string) (data : Backend.CalibratedReading) : Backend.row :=
  [Backend.CStr utcnow;
   Backend.CFloat (Backend.Temperature data);
   Backend.CFloat (Backend.Humidity data);
   Backend.CFloat (Backend.CO2 data);
   Backend.CFloat (Backend.Oxygen data);
   Backend.CFloat (Backend.UV_Index data);
   Backend.CFloat (Backend.Solar_Radiation data);
   Backend.CFloat (Backend.Air_Quality data);
   Backend.CFloat (Backend.GSR data);
   Backend.CFloat (Backend.Atmospheric_Pressure data)].

Definition is_publish {Payload : Type} (ev : Backend.mqtt_event Payload) : bool :=
  match ev with Backend.Publish _ _ => true | _ => false end.

Definition is_skip (r : Backend.log_record) : bool :=
  match r with
  | (Backend.WARNING, Backend.MqttNotConnectedSkippingPublish) => true
  | _ => false
  end.

(** What holds of a process [p] started on the globals [w0]: the snapshots
    queued at the start and those enqueued since are, in arrival order, the
    ones persisted, then at most one dropped, then the ones still queued;
    the rows added to the file are the rows of the calibrations of the
    persisted ones; and a snapshot was dropped exactly when its conversion
    raised and ended the processor thread. *)
Definition conserved (w0 : Backend.World) (p : Backend.Process) : Prop :=
  exists (enqueued persisted dropped : list pyval)
         (stamped : list (string * Backend.CalibratedReading)),
    Backend.data_queue w0 ++ enqueued =
      persisted ++ dropped ++ Backend.data_queue (Backend.globals p) /\
    Forall is_dict enqueued /\
    Forall2 (fun raw sr => Backend.convert_values raw = Ok sr.2) persisted stamped /\
    default [] (Backend.csv_file (Backend.globals p)) =
      default [] (Backend.csv_file w0) ++ ((fun sr => row_of sr.1 sr.2) <$> stamped) /\
    match Backend.processor p with
    | None => dropped = []
    | Some e => exists raw, dropped = [raw] /\ Backend.convert_values raw = Raise e
    end.

(** *** The simulated pipeline *)

(** A snapshot is complete when its keys are the nine sensor names, in
    order. *)
Definition complete (snap : Sim.snapshot) : Prop := snap.*1 = Sim.sensors.

(** The snapshot of a tick: each sensor with what its [read] returned. *)
Definition snapshot_of (read_funcs : string -> nat -> Sim.attempt) : Sim.snapshot :=
  (fun name => (name, (Sim.read name (read_funcs name)).1)) <$> Sim.sensors.

(** The row of a tick. *)
Definition sim_row_of (now : string) (read_funcs : string -> nat -> Sim.attempt) : Sim.row :=
  Sim.CStr now ::
  ((fun name => Sim.CValue (Sim.read name (read_funcs name)).1) <$> Sim.sensors).

Definition is_processor_turn (t : Sim.turn) : bool :=
  match t with Sim.ProcessorTurn => true | _ => false end.
End Observe.

(* ===================================================================== *)
(** * The decoder has fuel enough                                        *)
(* ===================================================================== *)

Section JsonFuel.
Import Py Json Observe.

Local Abbreviation len := String.length.

Lemma skip_ws_le (s : string) : len (skip_ws s) <= len s.
Proof.
  induction s as [| c s IH]; cbn; [ lia |].
  destruct (is_ws c); cbn; lia.
Qed.

Lemma after_prefix_length (p : string) :
  forall s r, after_prefix p s = Some r -> len r + len p = len s.
Proof.
  induction p as [| a p IH]; intros s r H; cbn in H.
  - injection H as <-. cbn. lia.
  - destruct s as [| b s]; [ discriminate H |].
    destruct (Ascii.eqb a b); [| discriminate H].
    apply IH in H. cbn. lia.
Qed.

Lemma prepend_ok_inv (p : string) (x : result (string * string)) (str r : string) :
  prepend p x = Ok (str, r) -> exists str', x = Ok (str', r).
Proof.
  unfold prepend, mbind, result_bind. destruct x as [[a b] |]; [| discriminate].
  intros [= <- <-]. eauto.
Qed.

Lemma prepend_raise_inv (p : string) (x : result (string * string)) (e : exn) :
  prepend p x = Raise e -> x = Raise e.
Proof.
  unfold prepend, mbind, result_bind. destruct x as [[a b] |]; [ discriminate | auto ].
Qed.

Lemma scanstring_spec_bounded (n : nat) :
  forall s, len s < n -> scanstring_good s.
Proof.
  induction n as [| n IH]; intros s Hn; [ lia |].
  assert (Hrec : forall s' p, len s' < len s ->
            (forall str r, prepend p (scanstring s') = Ok (str, r) -> len r < len s) /\
            (forall e, prepend p (scanstring s') = Raise e -> e = JSONDecodeError)).
  { intros s' p Hlt. destruct (IH s' ltac:(lia)) as [H1 H2]. split.
    - intros str r (str' & E)%prepend_ok_inv. apply H1 in E. lia.
    - intros e E%prepend_raise_inv. eauto. }
  clear IH.
  destruct s as [| c rest]; [ split; [ discriminate | intros e [= <-]; reflexivity ] |].
  unfold scanstring_good.
  cbn [scanstring].
  repeat (match goal with
          | |- context [match ?x with _ => _ end] => destruct x eqn:?
          end);
  try solve [ split; [ discriminate | intros ? [= <-]; reflexivity ] ];
  try solve [ split; [ intros ? ? [= <- <-]; cbn; lia | discriminate ] ];
  try solve [ subst; apply Hrec; cbn; lia ].
Qed.

Lemma scanstring_spec (s : string) : scanstring_good s.
Proof. apply (scanstring_spec_bounded (S (len s))). lia. Qed.

Lemma span_digits_le (s : string) :
  forall acc count n count' r,
    span_digits s acc count = (n, count', r) ->
    len r <= len s /\ (count < count' -> len r < len s).
Proof.
  induction s as [| c s IH]; intros acc count n count' r H; cbn in H.
  - injection H as <- <- <-. cbn. lia.
  - destruct (is_digit c).
    + apply IH in H. cbn. lia.
    + injection H as <- <- <-. cbn. lia.
Qed.

Lemma integer_part_lt (s : string) (n : Z) (r : string) :
  integer_part s = Some (n, r) -> len r < len s.
Proof.
  unfold integer_part. destruct s as [| c rest]; [ discriminate |].
  destruct (Ascii.eqb c "0").
  - intros [= <- <-]. cbn. lia.
  - destruct (is_digit c) eqn:Hd; [| discriminate].
    destruct (span_digits (String c rest) 0 0) as [[n' count] rest'] eqn:E.
    intros [= <- <-]. cbn [span_digits] in E. rewrite Hd in E.
    apply span_digits_le in E. cbn. lia.
Qed.

Lemma fraction_part_le (s : string) (n : Z) (count : nat) (r : string) :
  fraction_part s = Some (n, count, r) -> len r <= len s.
Proof.
  unfold fraction_part. destruct s as [| c rest]; [ discriminate |].
  destruct (Ascii.eqb c "."); [| discriminate].
  destruct (span_digits rest 0 0) as [[n' count'] rest'] eqn:E.
  destruct count'; [ discriminate |].
  intros [= <- <- <-]. apply span_digits_le in E. cbn. lia.
Qed.

Lemma exponent_part_le (s : string) (n : Z) (r : string) :
  exponent_part s = Some (n, r) -> len r <= len s.
Proof.
  unfold exponent_part. destruct s as [| c rest]; [ discriminate |].
  destruct (Ascii.eqb c "e" || Ascii.eqb c "E"); [| discriminate].
  destruct rest as [| sg rest'].
  - cbn. discriminate.
  - destruct (Ascii.eqb sg "-"); [| destruct (Ascii.eqb sg "+") ].
    all: match goal with
         | |- context [span_digits ?d 0 0] =>
             destruct (span_digits d 0 0) as [[n' count'] r'] eqn:E
         end;
         destruct count'; [ discriminate |];
         intros [= <- <-]; apply span_digits_le in E; cbn in *; lia.
Qed.

Lemma number_of_spec (neg : bool) (body : string) :
  decodes_well body (number_of neg body).
Proof.
  unfold number_of, decodes_well.
  destruct (integer_part body) as [[ip r1] |] eqn:Ei;
    [| split; [ discriminate | intros ? [= <-]; reflexivity ] ].
  apply integer_part_lt in Ei.
  destruct (fraction_part r1) as [[[f count] rf] |] eqn:Ef;
    [ apply fraction_part_le in Ef |];
    (destruct (exponent_part _) as [[ex re] |] eqn:Ee;
     [ apply exponent_part_le in Ee |]);
    cbn; (split; [ intros v r [= <- <-]; lia | discriminate ]).
Qed.

Lemma decodes_well_longer (s s' : string) (x : result (pyval * string)) :
  len s <= len s' -> decodes_well s x -> decodes_well s' x.
Proof. intros Hle [H1 H2]. split; [| exact H2 ]. intros v r E. apply H1 in E. lia. Qed.

Lemma match_number_spec (s : string) : decodes_well s (match_number s).
Proof.
  unfold match_number. destruct s as [| c rest]; [ apply number_of_spec |].
  destruct (Ascii.eqb c "-"); [| apply number_of_spec ].
  apply (decodes_well_longer rest); [ cbn; lia | apply number_of_spec ].
Qed.

Ltac fails := split; [ discriminate | intros ? [= <-]; reflexivity ].

Ltac ws x :=
  let H := fresh "Hws" in
  pose proof (skip_ws_le x) as H;
  destruct (skip_ws x); cbn [String.length] in H.

Lemma scan_fuel (fuel : nat) :
  (forall s, 2 * len s < fuel -> decodes_well s (scan_once fuel s)) /\
  (forall s acc, 2 * len s + 1 < fuel -> decodes_well s (parse_pairs fuel s acc)) /\
  (forall s acc, 2 * len s + 1 < fuel -> decodes_well s (parse_items fuel s acc)).
Proof.
  induction fuel as [| fuel (IHscan & IHpairs & IHitems)].
  { split_and!; intros; lia. }
  split_and!.
  - intros s Hf. cbn [scan_once].
    destruct s as [| c rest]; [ fails |].
    cbn [String.length] in Hf.
    destruct (char_code c =? 34)%N.
    { destruct (scanstring_spec rest) as [H1 H2].
      unfold mbind, result_bind. destruct (scanstring rest) as [[str r'] | e] eqn:E.
      - split; [| discriminate ]. intros v r [= <- <-].
        specialize (H1 _ _ eq_refl). cbn. lia.
      - split; [ discriminate |]. intros ? [= <-]. exact (H2 e eq_refl). }
    destruct (char_code c =? 123)%N.
    { ws rest; [ fails |].
      destruct (char_code _ =? 125)%N.
      - split; [| discriminate ]. intros v r [= <- <-]. cbn. lia.
      - destruct (char_code _ =? 34)%N; [| fails ].
        eapply decodes_well_longer; [| apply IHpairs; lia ]. cbn. lia. }
    destruct (char_code c =? 91)%N.
    { ws rest; [ fails |].
      destruct (char_code _ =? 93)%N.
      - split; [| discriminate ]. intros v r [= <- <-]. cbn. lia.
      - eapply decodes_well_longer; [| apply IHitems; cbn; lia ]. cbn. lia. }
    repeat match goal with
           | |- context [after_prefix ?p ?t] =>
               let E := fresh "E" in
               destruct (after_prefix p t) eqn:E;
               [ apply after_prefix_length in E; cbn [String.length] in E | clear E ]
           end;
    try solve [ split; [ intros v r [= <- <-]; cbn; lia | discriminate ] ].
    apply match_number_spec.
  - intros s acc Hf. cbn [parse_pairs]. unfold mbind, result_bind.
    destruct (scanstring_spec s) as [H1 H2].
    destruct (scanstring s) as [[key r1] | e] eqn:E;
      [ specialize (H1 _ _ eq_refl)
      | split; [ discriminate | intros ? [= <-]; exact (H2 e eq_refl) ] ].
    ws r1; [ fails |].
    destruct (char_code _ =? 58)%N; [| fails ].
    match goal with
    | |- context [scan_once fuel (skip_ws ?r2)] =>
        pose proof (skip_ws_le r2) as Hr2;
        destruct (IHscan (skip_ws r2) ltac:(lia)) as [S1 S2];
        destruct (scan_once fuel (skip_ws r2)) as [[v' r3] | e'] eqn:Es;
        [ specialize (S1 _ _ eq_refl)
        | split; [ discriminate | intros ? [= <-]; exact (S2 e' eq_refl) ] ]
    end.
    ws r3; [ fails |].
    destruct (char_code _ =? 125)%N.
    { split; [| discriminate ]. intros v r [= <- <-]. lia. }
    destruct (char_code _ =? 44)%N; [| fails ].
    match goal with
    | |- context [match skip_ws ?r4 with _ => _ end] => ws r4; [ fails |]
    end.
    destruct (char_code _ =? 34)%N; [| fails ].
    eapply decodes_well_longer; [| apply IHpairs; lia ]. lia.
  - intros s acc Hf. cbn [parse_items]. unfold mbind, result_bind.
    destruct (IHscan s ltac:(lia)) as [S1 S2].
    destruct (scan_once fuel s) as [[v' r1] | e'] eqn:Es;
      [ specialize (S1 _ _ eq_refl)
        | split; [ discriminate | intros ? [= <-]; exact (S2 e' eq_refl) ] ].
    ws r1; [ fails |].
    destruct (char_code _ =? 93)%N.
    { split; [| discriminate ]. intros v r [= <- <-]. lia. }
    destruct (char_code _ =? 44)%N; [| fails ].
    match goal with
    | |- context [parse_items fuel (skip_ws ?r2)] => pose proof (skip_ws_le r2) as Hr2
    end.
    eapply decodes_well_longer; [| apply IHitems; lia ]. lia.
Qed.

(** The fuel [loads] gives is enough: decoding never ends for lack of it,
    and the only exception of [loads] is JSONDecodeError. *)
Lemma loads_fuel_suffices (s : string) (e : exn) :
  loads s = Raise e -> e = JSONDecodeError.
Proof.
  unfold loads, mbind, result_bind.
  pose proof (skip_ws_le s) as Hle.
  destruct (proj1 (scan_fuel (S (2 * len s))) (skip_ws s) ltac:(lia)) as [_ H].
  destruct (scan_once _ (skip_ws s)) as [[v rest] | e'].
  - destruct (skip_ws rest); [ discriminate | intros [= <-]; reflexivity ].
  - intros [= <-]. exact (H e' eq_refl).
Qed.

End JsonFuel.

(* ===================================================================== *)
(** * The builtins on sample inputs                                      *)
(* ===================================================================== *)

Section Samples.
Import Py Scenario.
Local Open Scope float_scope.

(** [round] rounds the exact binary value, ties to even. *)
Example round_samples :
  round 2.5 0 = 2 /\ round 3.5 0 = 4 /\ round 0.125 2 = 0.12 /\
  round 2.675 2 = 2.67 /\ round 34.2130987 2 = 34.21 /\ round 1e22 2 = 1e22 /\
  round (-0.001) 2 = neg_zero /\ round infinity 2 = infinity.
Proof. split_and!; vm_compute; reflexivity. Qed.

(** [int / int] is the correctly rounded quotient. *)
Example int_truediv_samples :
  int_truediv 700 1023 = Ok (700 / 1023) /\
  int_truediv 1 3 = Ok (1 / 3) /\
  int_truediv 0 1023 = Ok 0 /\
  int_truediv 1 0 = Raise ZeroDivisionError.
Proof. split_and!; vm_compute; reflexivity. Qed.

Example int_samples :
  int (PyInt 512) = Ok 512%Z /\
  int (PyBool true) = Ok 1%Z /\
  int (PyFloat 512.9) = Ok 512%Z /\
  int (PyFloat (-3.7)) = Ok (-3)%Z /\
  int (PyFloat nan) = Raise ValueError /\
  int (PyStr " 1_000 ") = Ok 1000%Z /\
  int (PyStr "-7") = Ok (-7)%Z /\
  int (PyStr "12.5") = Raise ValueError /\
  int (PyStr "") = Raise ValueError /\
  int (PyStr "1__0") = Raise ValueError /\
  int PyNone = Raise TypeError /\
  int (PyList []) = Raise TypeError.
Proof. split_and!; vm_compute; reflexivity. Qed.

Example strip_samples :
  strip "  {a}  " = "{a}" /\
  strip (String (ascii_of_nat 9) ("x y" +:+ String (ascii_of_nat 13) (String (ascii_of_nat 10) ""))) = "x y" /\
  strip "   " = "" /\
  endswith "{a}" "}" = true /\ startswith "{a}" "{" = true /\ endswith "" "}" = false.
Proof. split_and!; vm_compute; reflexivity. Qed.

Example loads_samples :
  Json.loads snapshot_line = Ok snapshot /\
  Json.loads "{}" = Ok (PyDict []) /\
  Json.loads " [1, 2.5, -3e2, null, true, [], {}] " =
    Ok (PyList [PyInt 1; PyFloat 2.5; PyFloat (-300); PyNone; PyBool true;
                PyList []; PyDict []]) /\
  Json.loads (object_text [("a", "1"); ("b", "2"); ("a", "3")]) =
    Ok (PyDict [("a", PyInt 3); ("b", PyInt 2)]) /\
  Json.loads "1e0" = Ok (PyFloat 1) /\
  Json.loads "0.1" = Ok (PyFloat 0.1) /\
  Json.loads "9007199254740993.0" = Ok (PyFloat 9007199254740992) /\
  Json.loads "1e400" = Ok (PyFloat infinity) /\
  Json.loads "-0" = Ok (PyInt 0) /\
  Json.loads "01" = Raise JSONDecodeError /\
  Json.loads "[1,]" = Raise JSONDecodeError /\
  Json.loads "{}x" = Raise JSONDecodeError /\
  Json.loads "" = Raise JSONDecodeError.
Proof. split_and!; vm_compute; reflexivity. Qed.

End Samples.

(* ===================================================================== *)
(** * Properties of the live pipeline's calibration                      *)
(* ===================================================================== *)

Section Calibration.
Import Py Backend Scenario Observe.
Local Open Scope Z_scope.

Lemma calibrate_int (r : Z) :
  calibrate (PyInt r) = Some (Z.max 0 (Z.min 1023 r)).
Proof.
  unfold calibrate, int.
  rewrite Z.gtb_ltb.
  destruct (Z.ltb_spec r 0) as [Hneg | Hpos].
  - destruct (Z.ltb_spec 1023 0); [lia |]. f_equal. lia.
  - destruct (Z.ltb_spec 1023 r); f_equal; lia.
Qed.

Lemma calibrate_range (raw : pyval) (s : Z) :
  calibrate raw = Some s -> 0 <= s <= 1023.
Proof.
  unfold calibrate.
  destruct (int raw) as [r |]; [| discriminate].
  rewrite Z.gtb_ltb. intros H. injection H as <-.
  destruct (Z.ltb_spec r 0).
  - destruct (Z.ltb_spec 1023 0); lia.
  - destruct (Z.ltb_spec 1023 r); lia.
Qed.

(** A [None] from [calibrate] is never a reading: the sentinel differs
    from every clamped value, zero included. *)
Lemma calibrate_none_iff_int_raises (raw : pyval) :
  calibrate raw = None <-> exists e, int raw = Raise e.
Proof.
  unfold calibrate.
  destruct (int raw) as [r | e]; split.
  - discriminate.
  - intros [e He]. discriminate.
  - eauto.
  - reflexivity.
Qed.

Lemma scaled_some (s : Z) (channel_max : float) :
  exists q, div_1023 (Some s) = Ok q /\
            scaled (Some s) channel_max = Ok (round (q * channel_max)%float 2).
Proof.
  unfold scaled, div_1023, int_truediv, mbind, result_bind.
  destruct s; eauto.
Qed.

Lemma scaled_none (channel_max : float) : scaled None channel_max = Raise TypeError.
Proof. reflexivity. Qed.

(** What a successful [convert_values] says about one channel and the
    quantities computed from it. *)
Lemma scaled_ok_inv (v : option Z) (channel_max x : float) :
  scaled v channel_max = Ok x ->
  exists s q, v = Some s /\ div_1023 (Some s) = Ok q /\
              x = round (q * channel_max)%float 2.
Proof.
  destruct v as [s |]; [| discriminate].
  destruct (scaled_some s channel_max) as (q & Hq & Hs).
  rewrite Hs. intros [= <-]. eauto.
Qed.

Ltac step_bind H :=
  match type of H with
  | match ?m with Ok _ => _ | Raise _ => _ end = Ok _ =>
      let E := fresh "E" in
      destruct m eqn:E; [ | discriminate H ]
  end.

(** What a successful [convert_values] says: every channel was present and
    calibrated to a number, and each quantity is the scaled value of its
    channel. *)
Lemma convert_values_inv (data : pyval) (r : CalibratedReading) :
  convert_values data = Ok r ->
  exists oxy uv pres solar th co2 aq : pyval,
    getitem data "oxygen" = Ok oxy /\
    getitem data "uv" = Ok uv /\
    getitem data "pressure" = Ok pres /\
    getitem data "solar" = Ok solar /\
    getitem data "temp_humidity" = Ok th /\
    getitem data "co2" = Ok co2 /\
    getitem data "air_quality" = Ok aq /\
    scaled (calibrate th) 50 = Ok (Temperature r) /\
    scaled (calibrate th) 100 = Ok (Humidity r) /\
    scaled (calibrate co2) 2000 = Ok (CO2 r) /\
    scaled (calibrate oxy) 21 = Ok (Oxygen r) /\
    scaled (calibrate uv) 11 = Ok (UV_Index r) /\
    scaled (calibrate solar) 1200 = Ok (Solar_Radiation r) /\
    scaled (calibrate aq) 500 = Ok (Air_Quality r) /\
    scaled (calibrate solar) 100 = Ok (GSR r) /\
    scaled (calibrate pres) 1100 = Ok (Atmospheric_Pressure r).
Proof.
  unfold convert_values, mbind, result_bind, fmap, result_fmap.
  intros H.
  destruct (getitem data "oxygen") as [oxy |]; [| discriminate H].
  destruct (getitem data "uv") as [uv |]; [| discriminate H].
  destruct (getitem data "pressure") as [pres |]; [| discriminate H].
  destruct (getitem data "solar") as [solar |]; [| discriminate H].
  destruct (getitem data "temp_humidity") as [th |]; [| discriminate H].
  destruct (getitem data "co2") as [co2 |]; [| discriminate H].
  destruct (getitem data "air_quality") as [aq |]; [| discriminate H].
  repeat step_bind H.
  injection H as <-. cbn.
  exists oxy, uv, pres, solar, th, co2, aq. split_and!; reflexivity || assumption.
Qed.


Lemma scaled_available (raw : pyval) (channel_max x : float) :
  scaled (calibrate raw) channel_max = Ok x -> exists s, calibrate raw = Some s.
Proof. intros (s & q & Hs & _)%scaled_ok_inv. eauto. Qed.

(** [convert_values] returns only when every channel is available: with a
    channel absent, or one [int] refuses, it raises. *)
Lemma convert_values_needs_every_channel (data : pyval) (r : CalibratedReading) :
  convert_values data = Ok r -> Forall (available data) channels.
Proof.
  intros H. destruct (convert_values_inv data r H)
    as (oxy & uv & pres & solar & th & co2 & aq & Ho & Hu & Hp & Hs & Ht & Hc & Ha &
        St & _ & Sc & So & Su & Ss & Sa & _ & Sp).
  unfold channels, available.
  repeat constructor.
  - destruct (scaled_available _ _ _ So); eauto.
  - destruct (scaled_available _ _ _ Su); eauto.
  - destruct (scaled_available _ _ _ Sp); eauto.
  - destruct (scaled_available _ _ _ Ss); eauto.
  - destruct (scaled_available _ _ _ St); eauto.
  - destruct (scaled_available _ _ _ Sc); eauto.
  - destruct (scaled_available _ _ _ Sa); eauto.
Qed.

Lemma convert_values_raises_on_unavailable_channel (data : pyval) (key : string) :
  In key channels -> ~ available data key -> exists e, convert_values data = Raise e.
Proof.
  intros Hin Hun.
  destruct (convert_values data) as [r | e] eqn:E; [| eauto].
  exfalso. apply Hun.
  pose proof (convert_values_needs_every_channel data r E) as Hall.
  rewrite Forall_forall in Hall. apply Hall. apply list_elem_of_In. exact Hin.
Qed.

(** With every channel available, [convert_values] returns a reading. *)
Lemma convert_values_returns (data : pyval) :
  Forall (available data) channels -> exists r, convert_values data = Ok r.
Proof.
  unfold channels. intros H.
  repeat match goal with
         | H : Forall _ (_ :: _) |- _ =>
             let Hk := fresh "Hk" in
             apply Forall_cons in H as [Hk H];
             destruct Hk as (? & ? & ? & ?)
         end.
  unfold convert_values, mbind, result_bind, fmap, result_fmap.
  repeat match goal with
         | E : getitem data _ = Ok _ |- _ => rewrite E; clear E
         end.
  repeat match goal with
         | E : calibrate _ = Some _ |- _ => rewrite E; clear E
         end.
  repeat match goal with
         | |- context [scaled (Some ?s) ?m] =>
             let q := fresh "q" in
             destruct (scaled_some s m) as (q & _ & ->)
         end.
  eauto.
Qed.


(** C5. For all integer raw values, [calibrate] is monotonic non-decreasing,
    its result lies in [0, 1023], and clamping the argument into [0, 1023]
    first does not change the result. *)
Theorem C5_calibrate_monotone_clamped (r1 r2 : Z) :
  r1 <= r2 ->
  exists c1 c2 : Z,
    calibrate (PyInt r1) = Some c1 /\
    calibrate (PyInt r2) = Some c2 /\
    c1 <= c2 /\
    0 <= c1 <= 1023 /\
    calibrate (PyInt (Z.max 0 (Z.min 1023 r1))) = calibrate (PyInt r1).
Proof.
  intros Hle.
  exists (Z.max 0 (Z.min 1023 r1)), (Z.max 0 (Z.min 1023 r2)).
  rewrite !calibrate_int.
  repeat split; try lia.
  f_equal. lia.
Qed.

Lemma C5_calibrate_witness :
  -5 <= 2000 /\
  exists c1 c2 : Z,
    calibrate (PyInt (-5)) = Some c1 /\
    calibrate (PyInt 2000) = Some c2 /\
    c1 <= c2 /\
    0 <= c1 <= 1023 /\
    calibrate (PyInt (Z.max 0 (Z.min 1023 (-5)))) = calibrate (PyInt (-5)).
Proof.
  split; [ lia | apply (C5_calibrate_monotone_clamped (-5) 2000); lia ].
Defined.

End Calibration.

Section Conversion.
Import Py Backend Scenario Observe.
Local Open Scope Z_scope.

(** The documented reading of the end-to-end scenario is not the one
    [convert_values] returns: CO2, Solar Radiation, GSR and Atmospheric
    Pressure differ. *)
Lemma C1_documented_reading_differs :
  convert_values snapshot <> Ok documented_reading.
Proof.
  intros H.
  apply (f_equal (fun x => match x with
                           | Ok r => Prim2SF (CO2 r)
                           | Raise _ => S754_nan
                           end)) in H.
  vm_compute in H. discriminate H.
Qed.

(** C1. For the snapshot of the end-to-end scenario, [convert_values]
    returns Temperature 34.21, Humidity 68.43, CO2 586.51, Oxygen 10.51,
    UV Index 1.0, Solar Radiation 997.07, Air Quality 48.88, GSR 83.09 and
    Atmospheric Pressure 500.0, each value being
    [(clamped_raw / 1023) * channel_max] rounded to two decimal places. *)
Theorem C1_scenario_reading :
  convert_values snapshot = Ok computed_reading /\
  scaled (Some 700) 50 = Ok (Temperature computed_reading) /\
  scaled (Some 700) 100 = Ok (Humidity computed_reading) /\
  scaled (Some 300) 2000 = Ok (CO2 computed_reading) /\
  scaled (Some 512) 21 = Ok (Oxygen computed_reading) /\
  scaled (Some 93) 11 = Ok (UV_Index computed_reading) /\
  scaled (Some 850) 1200 = Ok (Solar_Radiation computed_reading) /\
  scaled (Some 100) 500 = Ok (Air_Quality computed_reading) /\
  scaled (Some 850) 100 = Ok (GSR computed_reading) /\
  scaled (Some 465) 1100 = Ok (Atmospheric_Pressure computed_reading).
Proof. split_and!; vm_compute; reflexivity. Qed.

(** C2. A serial line whose oxygen channel is [null] is accepted by the
    reader and queued; [calibrate] turns the [null] into [None], and
    [convert_values] then raises TypeError on [None / 1023], which ends the
    processor thread.  A line without the channel raises KeyError. *)
Theorem C2_null_channel_raises :
  let queued := PyDict [("oxygen", PyNone); ("uv", PyInt 93); ("pressure", PyInt 465);
                        ("solar", PyInt 850); ("temp_humidity", PyInt 700);
                        ("co2", PyInt 300); ("air_quality", PyInt 100)] in
  let w := serial_reader_iteration (Received null_line) initial in
  w = put queued initial /\
  calibrate PyNone = None /\
  convert_values queued = Raise TypeError /\
  data_processor_iteration "station" "2024-01-01T00:00:00" 0 w = Dies TypeError initial /\
  (exists short, Json.loads short_line = Ok short /\
                 convert_values short = Raise (KeyError "oxygen")).
Proof.
  cbv zeta. split; [| split; [| split; [| split ] ] ].
  1-4: vm_compute; reflexivity.
  exists (PyDict [("uv", PyInt 93); ("pressure", PyInt 465); ("solar", PyInt 850);
                  ("temp_humidity", PyInt 700); ("co2", PyInt 300);
                  ("air_quality", PyInt 100)]).
  split; vm_compute; reflexivity.
Qed.




End Conversion.

(* ===================================================================== *)
(** * Properties of the publisher and of the persistence sink            *)
(* ===================================================================== *)

Section Publisher.
Import Py Backend.
Context {Payload : Type}.

Lemma publish_disconnected (c : MQTTClient Payload) (topic : string) (payload : Payload) :
  connected c = false ->
  publish c topic payload = (c, [(WARNING, MqttNotConnectedSkippingPublish)]).
Proof. intros H. unfold publish. rewrite H. reflexivity. Qed.

Lemma step_connects_only_on_connect_ok (c : MQTTClient Payload) (ev : mqtt_event Payload) :
  connected c = false ->
  connected (mqtt_step c ev).1 = true ->
  ev = OnConnect 0.
Proof.
  intros Hoff Hon. destruct ev as [rc | rc | o | topic payload]; cbn in Hon.
  - apply Z.eqb_eq in Hon. congruence.
  - discriminate Hon.
  - destruct o; cbn in Hon; congruence.
  - rewrite (publish_disconnected c topic payload Hoff) in Hon. cbn in Hon. congruence.
Qed.

(** C9. While the client is not connected, [publish] hands nothing to the
    broker library, returns normally and logs one warning.  The flag is
    false at construction; an event turns it from false to true only if it
    is the connect callback with [rc = 0]; after a disconnect callback it is
    false again and the next [publish] is skipped. *)
Theorem C9_publisher_connection_state :
  (forall (c : MQTTClient Payload) (topic : string) (payload : Payload),
     connected c = false ->
     publish c topic payload = (c, [(WARNING, MqttNotConnectedSkippingPublish)])) /\
  connected (init (Payload := Payload)) = false /\
  (forall (c : MQTTClient Payload) (ev : mqtt_event Payload),
     connected c = false ->
     connected (mqtt_step c ev).1 = true ->
     ev = OnConnect 0) /\
  (forall (c : MQTTClient Payload) (rc : Z),
     connected (_on_connect c rc).1 = true <-> rc = 0%Z) /\
  (forall (c : MQTTClient Payload) (rc : Z) (topic : string) (payload : Payload),
     let c' := (_on_disconnect c rc).1 in
     connected c' = false /\
     sent c' = sent c /\
     publish c' topic payload = (c', [(WARNING, MqttNotConnectedSkippingPublish)])).
Proof.
  split_and!.
  - apply publish_disconnected.
  - reflexivity.
  - apply step_connects_only_on_connect_ok.
  - intros c rc. cbn. apply Z.eqb_eq.
  - intros c rc topic payload. cbv zeta. split_and!; reflexivity.
Qed.

End Publisher.

(** A run of the client: a publish before the connection, a successful
    connect, a publish, a disconnect, a publish.  Only the second message
    reaches the broker library. *)
Lemma C9_publisher_run :
  Backend.publish Backend.init "weather/workstation" "first" =
    (Backend.init, [(Backend.WARNING, Backend.MqttNotConnectedSkippingPublish)]) /\
  Backend.mqtt_run Backend.init
    [Backend.Publish "weather/workstation" "first";
     Backend.OnConnect 0;
     Backend.Publish "weather/workstation" "second";
     Backend.OnDisconnect 1;
     Backend.Publish "weather/workstation" "third"] =
  ({| Backend.connected := false;
      Backend.loop_started := false;
      Backend.sent := [("weather/workstation", "second")] |},
   [(Backend.WARNING, Backend.MqttNotConnectedSkippingPublish);
    (Backend.INFO, Backend.MqttConnected);
    (Backend.WARNING, Backend.MqttDisconnected);
    (Backend.WARNING, Backend.MqttNotConnectedSkippingPublish)]).
Proof.
  split.
  - apply (proj1 (C9_publisher_connection_state (Payload := string))). reflexivity.
  - reflexivity.
Defined.

Section Persistence.
Import Py Observe.

Lemma header_is_header : is_header Backend.header = true.
Proof. reflexivity. Qed.

Lemma sim_header_is_header : sim_is_header Sim.header = true.
Proof. reflexivity. Qed.

(** C8. Initialisation creates the file with exactly one header row when it
    is missing and leaves an existing file as it is, without an error; a
    second call changes nothing, so the number of header rows after two
    calls is one for a missing file and unchanged for an existing one.  This
    holds for [ensure_csv] of the live pipeline and for the exclusive create
    of the simulated pipeline's main block. *)
Theorem C8_initialisation_never_duplicates_header :
  (forall file : Backend.csv_store,
     Backend.ensure_csv (Backend.ensure_csv file) = Backend.ensure_csv file /\
     Backend.ensure_csv file =
       match file with None => Some [Backend.header] | Some rows => Some rows end /\
     header_rows (Backend.ensure_csv (Backend.ensure_csv file)) =
       match file with None => 1 | Some _ => header_rows file end) /\
  (forall file : option (list Sim.row),
     Sim.create_csv (Sim.create_csv file) = Sim.create_csv file /\
     Sim.create_csv file =
       match file with None => Some [Sim.header] | Some rows => Some rows end /\
     sim_header_rows (Sim.create_csv (Sim.create_csv file)) =
       match file with None => 1 | Some _ => sim_header_rows file end).
Proof.
  split; intros [rows |]; split_and!; reflexivity.
Qed.

End Persistence.

(* ===================================================================== *)
(** * Properties of the threshold check                                  *)
(* ===================================================================== *)

Section Thresholds.
Import Py Sim.

Lemma check_threshold_cases (sensor_name : string) (value : option float) :
  match value with
  | None => check_threshold sensor_name value = "ERROR"
  | Some _ => check_threshold sensor_name value = "ALERT" \/
              check_threshold sensor_name value = "Normal"
  end.
Proof.
  destruct value as [v |]; [| reflexivity].
  unfold check_threshold.
  destruct (THRESHOLDS !! sensor_name) as [limit |]; [| now right].
  destruct (gt_int v limit); [now left | now right].
Qed.

(** C6. The threshold check answers ERROR for an unavailable reading,
    whatever the quantity, and only then: for a present value the answer is
    ALERT or Normal. *)
Theorem C6_unavailable_reading_is_error (sensor_name : string) (value : option float) :
  (value = None -> check_threshold sensor_name value = "ERROR") /\
  (check_threshold sensor_name value = "ERROR" -> value = None) /\
  (check_threshold sensor_name value = "ALERT" \/
   check_threshold sensor_name value = "Normal" <-> exists v, value = Some v).
Proof.
  pose proof (check_threshold_cases sensor_name value) as H.
  destruct value as [v |].
  - split_and!.
    + discriminate.
    + destruct H as [H | H]; rewrite H; discriminate.
    + split; [ eauto | intros _; exact H ].
  - split_and!.
    + reflexivity.
    + reflexivity.
    + rewrite H. split.
      * intros [E | E]; discriminate E.
      * intros [v E]. discriminate E.
Qed.

Ltac lookup_threshold H name :=
  let l := eval vm_compute in (THRESHOLDS !! name) in
  let E := fresh "E" in
  assert (THRESHOLDS !! name = l) as E by (vm_compute; reflexivity);
  rewrite E in H; clear E.

(** C10. In the simulated pipeline the threshold table has no entry under
    the sensor name of the temperature, only under a key without the closing
    parenthesis; the check of the temperature is therefore Normal for every
    present value, and among the nine sensors only CO2 and Air Quality can
    give ALERT (and do, above their limits). *)
Theorem C10_temperature_never_alerts :
  THRESHOLDS !! "Temperature (°C)" = None /\
  THRESHOLDS !! "Temperature (°C" = Some 30%Z /\
  (forall v : float, check_threshold "Temperature (°C)" (Some v) = "Normal") /\
  (forall (sensor_name : string) (value : option float),
     In sensor_name sensors ->
     check_threshold sensor_name value = "ALERT" ->
     sensor_name = "CO2 (ppm)" \/ sensor_name = "Air Quality (AQI)") /\
  check_threshold "CO2 (ppm)" (Some 1000.01%float) = "ALERT" /\
  check_threshold "Air Quality (AQI)" (Some 200.01%float) = "ALERT".
Proof.
  assert (Hkey : THRESHOLDS !! "Temperature (°C)" = None) by (vm_compute; reflexivity).
  split; [ exact Hkey | ].
  split; [ vm_compute; reflexivity | ].
  split; [ | split; [ | split; vm_compute; reflexivity ] ].
  - intros v. unfold check_threshold. rewrite Hkey. reflexivity.
  - intros sensor_name value Hin Halert.
    destruct value as [v |]; [| discriminate Halert].
    unfold check_threshold in Halert.
    unfold sensors in Hin. cbn [In] in Hin.
    repeat match type of Hin with
           | _ \/ _ => destruct Hin as [<- | Hin]
           end;
      try contradiction;
      try (now left); try (now right);
      match type of Halert with
      | context [THRESHOLDS !! ?name] => lookup_threshold Halert name
      end;
      discriminate Halert.
Qed.

End Thresholds.

(* ===================================================================== *)
(** * Properties of the serial reader                                    *)
(* ===================================================================== *)

Section Reader.
Import Py Backend Scenario.

(** The members of an object always decode to a dict. *)
Lemma parse_pairs_dict (fuel : nat) :
  forall (s : string) (acc : list (string * pyval)) (v : pyval) (r : string),
    Json.parse_pairs fuel s acc = Ok (v, r) -> exists d, v = PyDict d.
Proof.
  induction fuel as [| fuel IH]; intros s acc v r H; [ discriminate H |].
  cbn [Json.parse_pairs] in H.
  unfold mbind, result_bind in H.
  destruct (Json.scanstring s) as [[key r1] |]; [| discriminate H].
  destruct (Json.skip_ws r1) as [| colon r2]; [ discriminate H |].
  destruct (Json.char_code colon =? 58)%N; [| discriminate H].
  destruct (Json.scan_once fuel (Json.skip_ws r2)) as [[v' r3] |]; [| discriminate H].
  destruct (Json.skip_ws r3) as [| c r4]; [ discriminate H |].
  destruct (Json.char_code c =? 125)%N.
  - injection H as <- _. eauto.
  - destruct (Json.char_code c =? 44)%N; [| discriminate H].
    destruct (Json.skip_ws r4) as [| q r5]; [ discriminate H |].
    destruct (Json.char_code q =? 34)%N; [| discriminate H].
    exact (IH _ _ _ _ H).
Qed.

Lemma startswith_brace (line : string) :
  startswith line "{" = true -> exists rest, line = String "{" rest.
Proof.
  destruct line as [| c rest]; [ discriminate |].
  change (startswith (String c rest) "{")
    with (Ascii.eqb "{" c && startswith rest "").
  intros [H _]%andb_true_iff. apply Ascii.eqb_eq in H. subst c. eauto.
Qed.

(** A text that starts with an opening brace decodes to a dict or not at
    all. *)
Lemma loads_brace_dict (line : string) (data : pyval) :
  startswith line "{" = true ->
  Json.loads line = Ok data ->
  exists d, data = PyDict d.
Proof.
  intros [rest ->]%startswith_brace.
  unfold Json.loads, mbind, result_bind.
  change (Json.skip_ws (String "{" rest)) with (String "{" rest).
  cbn [Json.scan_once].
  change (Json.char_code "{" =? 34)%N with false.
  change (Json.char_code "{" =? 123)%N with true.
  cbv iota.
  destruct (Json.skip_ws rest) as [| c1 rest1]; [ discriminate |].
  destruct (Json.char_code c1 =? 125)%N.
  - destruct (Json.skip_ws rest1); [| discriminate]. intros [= <-]. eauto.
  - destruct (Json.char_code c1 =? 34)%N; [| discriminate].
    destruct (Json.parse_pairs _ rest1 []) as [[v r] |] eqn:E; [| discriminate].
    destruct (Json.skip_ws r); [| discriminate]. intros [= <-].
    exact (parse_pairs_dict _ _ _ _ _ E).
Qed.

Lemma startswith_nonempty (line : string) :
  startswith line "{" = true -> line <> "".
Proof. intros [rest ->]%startswith_brace. discriminate. Qed.

(** The empty object is a line the reader accepts, and so is an object
    with other keys and text values: neither maps the channel names to
    numbers. *)
Lemma C7_any_object_is_enqueued :
  data_queue (serial_reader_iteration (Received "{}") initial) = [PyDict []] /\
  getitem (PyDict []) "oxygen" = Raise (KeyError "oxygen") /\
  data_queue (serial_reader_iteration (Received note_line) initial) =
    [PyDict [("note", PyStr "hello")]] /\
  log (serial_reader_iteration (Received "{}") initial) = [].
Proof. split_and!; vm_compute; reflexivity. Qed.

(** C7. For every text read, with [line] the text stripped: the reader
    enqueues exactly when [line] begins with an opening brace, ends with a
    closing brace and [json.loads] accepts it, and what it enqueues is the
    decoded object, whatever its keys and values; an empty line is skipped
    silently, a line failing the brace test is logged at warning level and
    skipped, a line [json.loads] rejects is logged at error level and
    skipped. *)
Theorem C7_reader_enqueues_what_parses (text : string) (w : World) :
  let line := strip text in
  let w' := serial_reader_iteration (Received text) w in
  (forall data,
     startswith line "{" = true -> endswith line "}" = true ->
     Json.loads line = Ok data ->
     w' = put data w /\ exists d, data = PyDict d) /\
  (line = "" -> w' = w) /\
  (line <> "" ->
     startswith line "{" = false \/ endswith line "}" = false ->
     w' = logging [(WARNING, BadJson line)] w) /\
  (forall e,
     startswith line "{" = true -> endswith line "}" = true ->
     Json.loads line = Raise e ->
     w' = logging [(ERROR, SerialReadError e)] w) /\
  (data_queue w' = data_queue w \/
   exists d, data_queue w' = data_queue w ++ [PyDict d] /\
             startswith line "{" = true /\ endswith line "}" = true /\
             Json.loads line = Ok (PyDict d)).
Proof.
  cbv zeta. unfold serial_reader_iteration.
  set (line := strip text).
  split_and!.
  - intros data Hs He Hl.
    pose proof (startswith_nonempty line Hs) as Hne.
    destruct (decide (line = "")) as [Heq | _]; [ contradiction |].
    rewrite Hs, He, Hl. cbn. split; [ reflexivity | exact (loads_brace_dict line data Hs Hl) ].
  - intros Heq. destruct (decide (line = "")); [ reflexivity | contradiction ].
  - intros Hne Hbad.
    destruct (decide (line = "")) as [Heq | _]; [ contradiction |].
    destruct Hbad as [-> | ->]; cbn; [ reflexivity |].
    rewrite orb_true_r. reflexivity.
  - intros e Hs He Hl.
    pose proof (startswith_nonempty line Hs) as Hne.
    destruct (decide (line = "")) as [Heq | _]; [ contradiction |].
    rewrite Hs, He, Hl. reflexivity.
  - destruct (decide (line = "")) as [Heq | _]; [ now left |].
    destruct (startswith line "{") eqn:Hs; cbn [negb orb]; [| left; reflexivity ].
    destruct (endswith line "}") eqn:He; cbn [negb orb]; [| left; reflexivity ].
    destruct (Json.loads line) as [data | e] eqn:Hl; [| left; reflexivity ].
    destruct (loads_brace_dict line data Hs Hl) as [d ->].
    right. exists d. split_and!; reflexivity.
Qed.

Lemma C7_reader_witness :
  serial_reader_iteration (Received snapshot_line) initial = put snapshot initial /\
  exists d, snapshot = PyDict d.
Proof.
  apply (proj1 (C7_reader_enqueues_what_parses snapshot_line initial) snapshot);
    vm_compute; reflexivity.
Defined.

End Reader.

(* ===================================================================== *)
(** * Properties of the two processors                                   *)
(* ===================================================================== *)

Section Processor.
Import Py Scenario.

Lemma world_publish_queue (topic : string) (payload : Backend.document) (w : Backend.World) :
  Backend.data_queue (Backend.world_publish topic payload w) = Backend.data_queue w.
Proof. unfold Backend.world_publish. destruct (Backend.publish _ _ _). reflexivity. Qed.

Lemma world_publish_csv (topic : string) (payload : Backend.document) (w : Backend.World) :
  Backend.csv_file (Backend.world_publish topic payload w) = Backend.csv_file w.
Proof. unfold Backend.world_publish. destruct (Backend.publish _ _ _). reflexivity. Qed.

(** The live processor serves the queue first in, first out, one entry
    per iteration. *)
Lemma live_processor_takes_head
    (hostname utcnow : string) (now : float) (w : Backend.World)
    (raw : pyval) (rest : list pyval) (r : Backend.CalibratedReading) :
  Backend.data_queue w = raw :: rest ->
  Backend.convert_values raw = Ok r ->
  exists w',
    Backend.data_processor_iteration hostname utcnow now w = Backend.Continues w' /\
    Backend.data_queue w' = rest /\
    Backend.csv_file w' = Backend.write_csv utcnow r (Backend.csv_file w).
Proof.
  intros Hq Hr. unfold Backend.data_processor_iteration. rewrite Hq, Hr.
  eexists. split; [ reflexivity |].
  rewrite !world_publish_queue, !world_publish_csv. split; reflexivity.
Qed.

(** The simulated processor drains the queue and uses its last entry. *)
Lemma simulated_processor_takes_last
    (w : Sim.World) (older : list (string * Sim.snapshot))
    (timestamp : string) (latest_data : Sim.snapshot) (cells : list Sim.cell) :
  Sim.data_queue w = older ++ [(timestamp, latest_data)] ->
  Sim.values_of latest_data Sim.sensors = Ok cells ->
  Sim.data_processor_iteration w =
    Sim.Continues
      {| Sim.data_queue := [];
         Sim.csv_file := Some (default [] (Sim.csv_file w) ++ [Sim.CStr timestamp :: cells]);
         Sim.published := Sim.published w ++ [(Sim.TOPIC, latest_data)];
         Sim.console := Sim.console w ++ Sim.Banner timestamp :: Sim.table latest_data;
         Sim.log := Sim.log w |}.
Proof.
  intros Hq Hv. unfold Sim.data_processor_iteration.
  rewrite Hq, last_snoc, Hv. reflexivity.
Qed.


(** Every snapshot the sensor reader enqueues has a reading, or [None], for
    each of the nine sensors. *)
Lemma sensor_reader_snapshot_complete
    (now : string) (read_funcs : string -> nat -> Sim.attempt) (w : Sim.World) :
  exists snap,
    Sim.data_queue (Sim.sensor_reader_iteration now read_funcs w) =
      Sim.data_queue w ++ [(now, snap)] /\
    Sim.values_of snap Sim.sensors =
      Ok ((fun name => Sim.CValue (Sim.read name (read_funcs name)).1) <$> Sim.sensors).
Proof.
  unfold Sim.sensor_reader_iteration, Sim.sensors.
  cbn [Sim.read_all fmap list_fmap].
  destruct (Sim.read "Temperature (°C)" _) as [v1 l1].
  destruct (Sim.read "Humidity (%)" _) as [v2 l2].
  destruct (Sim.read "CO2 (ppm)" _) as [v3 l3].
  destruct (Sim.read "Oxygen (O2 %)" _) as [v4 l4].
  destruct (Sim.read "UV Index" _) as [v5 l5].
  destruct (Sim.read "Solar Radiation (W/m²)" _) as [v6 l6].
  destruct (Sim.read "Air Quality (AQI)" _) as [v7 l7].
  destruct (Sim.read "GSR" _) as [v8 l8].
  destruct (Sim.read "Atmospheric Pressure (hPa)" _) as [v9 l9].
  eexists. split; [ reflexivity |].
  vm_compute. reflexivity.
Qed.




End Processor.

(* ===================================================================== *)
(** * More on calibration and conversion                                 *)
(* ===================================================================== *)

Section CalibrationMore.
Import Py Backend Scenario Observe.
Local Open Scope Z_scope.

(** X1. Whatever the raw value, a number returned by [calibrate] lies in
    [0, 1023] and is a fixed point: calibrating it again returns it. *)
Theorem X1_calibrate_any_raw (raw : pyval) (s : Z) :
  calibrate raw = Some s ->
  0 <= s <= 1023 /\ calibrate (PyInt s) = Some s.
Proof.
  intros H. pose proof (calibrate_range raw s H) as Hr.
  split; [ exact Hr |]. rewrite calibrate_int. f_equal. lia.
Qed.

Lemma X1_calibrate_any_raw_witness :
  calibrate (PyStr " 2_000 ") = Some 1023 /\
  0 <= 1023 <= 1023 /\ calibrate (PyInt 1023) = Some 1023.
Proof.
  assert (H : calibrate (PyStr " 2_000 ") = Some 1023) by (vm_compute; reflexivity).
  split; [ exact H | exact (X1_calibrate_any_raw _ _ H) ].
Defined.

(** X2. [convert_values] returns a reading exactly when each of the seven
    channels is present and accepted by [int]; otherwise it raises. *)
Theorem X2_convert_values_returns_iff_available (data : pyval) :
  (exists r, convert_values data = Ok r) <-> Forall (available data) channels.
Proof.
  split.
  - intros [r H]. exact (convert_values_needs_every_channel data r H).
  - apply convert_values_returns.
Qed.

(** X3. [convert_values] looks at the seven channels only: two snapshots
    that agree on them give the same result, a raised exception included. *)
Theorem X3_convert_values_reads_only_its_channels (d1 d2 : pyval) :
  (forall key, In key channels -> getitem d1 key = getitem d2 key) ->
  convert_values d1 = convert_values d2.
Proof.
  intros H. unfold convert_values.
  rewrite !(H _) by (unfold channels; cbn [In]; tauto).
  reflexivity.
Qed.

Lemma X3_convert_values_reads_only_its_channels_witness :
  convert_values (PyDict [("station", PyStr "roof"); ("oxygen", PyInt 512); ("uv", PyInt 93);
                          ("pressure", PyInt 465); ("solar", PyInt 850);
                          ("temp_humidity", PyInt 700); ("co2", PyInt 300);
                          ("air_quality", PyInt 100); ("battery", PyNone)]) =
  convert_values snapshot.
Proof.
  apply X3_convert_values_reads_only_its_channels.
  intros key Hin. unfold channels in Hin. cbn [In] in Hin.
  repeat (destruct Hin as [<- | Hin]; [ vm_compute; reflexivity |]).
  contradiction.
Defined.

Lemma scaled_within_all (channel_max : float) :
  In channel_max (scales.*1) ->
  forall s, 0 <= s <= 1023 -> scaled_within channel_max s = true.
Proof.
  intros Hin.
  assert (Hall : forallb (fun m => forallb (fun n => scaled_within m (Z.of_nat n)) (seq 0 1024))
                         (scales.*1) = true) by (vm_compute; reflexivity).
  rewrite forallb_forall in Hall. specialize (Hall _ Hin).
  rewrite forallb_forall in Hall.
  intros s Hs. specialize (Hall (Z.to_nat s)).
  rewrite Z2Nat.id in Hall by lia. apply Hall. apply in_seq. lia.
Qed.

Lemma scaled_calibrated_within (raw : pyval) (channel_max x : float) :
  In channel_max (scales.*1) ->
  scaled (calibrate raw) channel_max = Ok x ->
  within 0 channel_max x = true.
Proof.
  intros Hin H.
  destruct (calibrate raw) as [s |] eqn:Hs; [| discriminate H ].
  pose proof (scaled_within_all channel_max Hin s (calibrate_range raw s Hs)) as Hw.
  unfold scaled_within in Hw. rewrite H in Hw. exact Hw.
Qed.

(** X4. Every quantity of a reading [convert_values] returns lies on its
    scale: Temperature in [0, 50], Humidity in [0, 100], CO2 in [0, 2000],
    Oxygen in [0, 21], UV Index in [0, 11], Solar Radiation in [0, 1200],
    Air Quality in [0, 500], GSR in [0, 100] and Atmospheric Pressure in
    [0, 1100], whatever the raw values were. *)
Theorem X4_reading_within_scales (data : pyval) (r : CalibratedReading) :
  convert_values data = Ok r ->
  within 0 50 (Temperature r) = true /\
  within 0 100 (Humidity r) = true /\
  within 0 2000 (CO2 r) = true /\
  within 0 21 (Oxygen r) = true /\
  within 0 11 (UV_Index r) = true /\
  within 0 1200 (Solar_Radiation r) = true /\
  within 0 500 (Air_Quality r) = true /\
  within 0 100 (GSR r) = true /\
  within 0 1100 (Atmospheric_Pressure r) = true.
Proof.
  intros H. destruct (convert_values_inv data r H)
    as (oxy & uv & pres & solar & th & co2 & aq & _ & _ & _ & _ & _ & _ & _ &
        St & Sh & Sc & So & Su & Ss & Sa & Sg & Sp).
  split_and!;
    match goal with
    | |- within 0 ?m _ = true =>
        eapply (scaled_calibrated_within _ m); [| eassumption ];
        unfold scales; cbn; tauto
    end.
Qed.

Lemma X4_reading_within_scales_witness :
  convert_values (PyDict [("oxygen", PyInt 5000); ("uv", PyFloat 1e30);
                          ("pressure", PyInt (-7)); ("solar", PyStr "1023");
                          ("temp_humidity", PyBool true); ("co2", PyInt 300);
                          ("air_quality", PyInt 100)]) =
    Ok {| Temperature := 0.05; Humidity := 0.1; CO2 := 586.51; Oxygen := 21;
          UV_Index := 11; Solar_Radiation := 1200; Air_Quality := 48.88;
          GSR := 100; Atmospheric_Pressure := 0 |} /\
  within 0 50 0.05 = true /\ within 0 1200 1200 = true.
Proof.
  assert (H : convert_values (PyDict [("oxygen", PyInt 5000); ("uv", PyFloat 1e30);
                          ("pressure", PyInt (-7)); ("solar", PyStr "1023");
                          ("temp_humidity", PyBool true); ("co2", PyInt 300);
                          ("air_quality", PyInt 100)]) =
    Ok {| Temperature := 0.05; Humidity := 0.1; CO2 := 586.51; Oxygen := 21;
          UV_Index := 11; Solar_Radiation := 1200; Air_Quality := 48.88;
          GSR := 100; Atmospheric_Pressure := 0 |}) by (vm_compute; reflexivity).
  pose proof (X4_reading_within_scales _ _ H) as W.
  split; [ exact H |]. split; [ exact (proj1 W) | exact (proj1 (proj2 (proj2 (proj2 (proj2 (proj2 W)))))) ].
Defined.

End CalibrationMore.

Section ScalesMore.
Import Py Backend Scenario Observe.
Local Open Scope Z_scope.

Lemma scaled_hundredths_spec (s : Z) (channel_max : float) (a : Z) :
  scaled_hundredths s channel_max = Some a ->
  scaled (Some s) channel_max = Ok (of_hundredths a).
Proof.
  unfold scaled_hundredths, scaled, mbind, result_bind.
  destruct (div_1023 (Some s)) as [q |]; [| discriminate ].
  unfold round.
  destruct (decimal_units (q * channel_max)%float 2) as [[| k | k] |]; cbn zeta.
  - destruct (get_sign (q * channel_max)%float); [ discriminate |].
    intros [= <-]. reflexivity.
  - intros [= <-]. reflexivity.
  - intros [= <-]. reflexivity.
  - discriminate.
Qed.

Lemma scale_steps_ok (scale : float * Z) (s : Z) :
  In scale scales -> 0 <= s < 1023 -> scale_step_ok scale s = true.
Proof.
  intros Hin Hs.
  assert (Hall : forallb (fun sc => forallb (fun n => scale_step_ok sc (Z.of_nat n)) (seq 0 1023))
                         scales = true) by (vm_compute; reflexivity).
  rewrite forallb_forall in Hall. specialize (Hall _ Hin).
  rewrite forallb_forall in Hall. specialize (Hall (Z.to_nat s)).
  rewrite Z2Nat.id in Hall by lia. apply Hall. apply in_seq. lia.
Qed.

Lemma scale_step (scale : float * Z) (s : Z) :
  In scale scales -> 0 <= s < 1023 ->
  exists a b, scaled_hundredths s scale.1 = Some a /\
              scaled_hundredths (s + 1) scale.1 = Some b /\
              0 <= a <= b /\ b <= scale.2.
Proof.
  intros Hin Hs. pose proof (scale_steps_ok scale s Hin Hs) as H.
  unfold scale_step_ok in H.
  destruct (scaled_hundredths s scale.1) as [a |]; [| discriminate H ].
  destruct (scaled_hundredths (s + 1) scale.1) as [b |]; [| discriminate H ].
  apply andb_true_iff in H as [H Hb]. apply andb_true_iff in H as [Ha Hab].
  exists a, b. split_and!; try reflexivity; lia.
Qed.

Lemma scale_total (scale : float * Z) (s : Z) :
  In scale scales -> 0 <= s <= 1023 ->
  exists a, scaled_hundredths s scale.1 = Some a /\ 0 <= a <= scale.2.
Proof.
  intros Hin Hs. destruct (Z.eq_dec s 1023) as [-> | Hne].
  - destruct (scale_step scale 1022 Hin ltac:(lia)) as (a & b & _ & Hb & ? & ?).
    change (1022 + 1) with 1023 in Hb. exists b. split; [ exact Hb | lia ].
  - destruct (scale_step scale s Hin ltac:(lia)) as (a & b & Ha & _ & ? & ?).
    exists a. split; [ exact Ha | lia ].
Qed.

Lemma scale_monotone (scale : float * Z) (n : nat) :
  In scale scales ->
  forall s a1 a2,
    0 <= s -> s + Z.of_nat n <= 1023 ->
    scaled_hundredths s scale.1 = Some a1 ->
    scaled_hundredths (s + Z.of_nat n) scale.1 = Some a2 ->
    a1 <= a2.
Proof.
  intros Hin. induction n as [| n IH]; intros s a1 a2 Hs Hn H1 H2.
  - rewrite Z.add_0_r in H2. rewrite H1 in H2. injection H2 as <-. lia.
  - destruct (scale_step scale s Hin ltac:(lia)) as (a & b & Ha & Hb & Hab & _).
    rewrite H1 in Ha. injection Ha as <-.
    replace (s + Z.of_nat (S n)) with (s + 1 + Z.of_nat n) in H2 by lia.
    pose proof (IH (s + 1) b a2 ltac:(lia) ltac:(lia) Hb H2). lia.
Qed.

(** X5. On each of the scales of [convert_values], the rounded quantity is
    monotonic non-decreasing in the clamped raw value and stays between zero
    and full scale; raw 0 gives exactly zero and raw 1023 exactly full
    scale. *)
Theorem X5_scales_monotone (scale : float * Z) (s1 s2 : Z) :
  In scale scales ->
  0 <= s1 <= s2 -> s2 <= 1023 ->
  exists a1 a2,
    scaled (Some s1) scale.1 = Ok (of_hundredths a1) /\
    scaled (Some s2) scale.1 = Ok (of_hundredths a2) /\
    0 <= a1 <= a2 /\ a2 <= scale.2 /\
    scaled (Some 0) scale.1 = Ok 0%float /\
    scaled (Some 1023) scale.1 = Ok scale.1.
Proof.
  intros Hin H12 H2.
  destruct (scale_total scale s1 Hin ltac:(lia)) as (a1 & E1 & R1).
  destruct (scale_total scale s2 Hin ltac:(lia)) as (a2 & E2 & R2).
  exists a1, a2.
  assert (Hm : a1 <= a2).
  { apply (scale_monotone scale (Z.to_nat (s2 - s1)) Hin s1 a1 a2); try lia; try assumption.
    rewrite Z2Nat.id by lia. replace (s1 + (s2 - s1)) with s2 by lia. exact E2. }
  split_and!; try lia.
  - exact (scaled_hundredths_spec _ _ _ E1).
  - exact (scaled_hundredths_spec _ _ _ E2).
  - unfold scales in Hin. cbn [In] in Hin.
    repeat (destruct Hin as [<- | Hin]; [ vm_compute; reflexivity |]). contradiction.
  - unfold scales in Hin. cbn [In] in Hin.
    repeat (destruct Hin as [<- | Hin]; [ vm_compute; reflexivity |]). contradiction.
Qed.

Lemma X5_scales_monotone_witness :
  exists a1 a2,
    scaled (Some 300) 2000 = Ok (of_hundredths a1) /\
    scaled (Some 850) 2000 = Ok (of_hundredths a2) /\
    0 <= a1 <= a2 /\ a2 <= 200000 /\
    scaled (Some 0) 2000 = Ok 0%float /\
    scaled (Some 1023) 2000 = Ok 2000%float.
Proof.
  apply (X5_scales_monotone (2000%float, 200000) 300 850).
  - unfold scales. cbn [In]. tauto.
  - lia.
  - lia.
Defined.

End ScalesMore.

(* ===================================================================== *)
(** * More on the publisher, the reader and the file                     *)
(* ===================================================================== *)

Section PublisherMore.
Import Py Backend Observe.
Context {Payload : Type}.

Lemma mqtt_step_effect (c : MQTTClient Payload) (ev : mqtt_event Payload) :
  exists more,
    sent (mqtt_step c ev).1 = sent c ++ more /\
    length more + length (List.filter is_skip (mqtt_step c ev).2) =
      (if is_publish ev then 1 else 0) /\
    Forall (fun m => ev = Publish m.1 m.2) more.
Proof.
  destruct ev as [rc | rc | o | topic payload]; cbn.
  - exists []. rewrite app_nil_r. destruct (rc =? 0)%Z; split_and!; auto.
  - exists []. rewrite app_nil_r. split_and!; auto.
  - exists []. rewrite app_nil_r. destruct o; cbn; split_and!; auto.
  - unfold publish. destruct (connected c); cbn.
    + exists [(topic, payload)]. split_and!; auto.
    + exists []. rewrite app_nil_r. split_and!; auto.
Qed.

Lemma mqtt_run_effect (evs : list (mqtt_event Payload)) :
  forall c : MQTTClient Payload,
  exists more,
    sent (mqtt_run c evs).1 = sent c ++ more /\
    length more + length (List.filter is_skip (mqtt_run c evs).2) =
      length (List.filter is_publish evs) /\
    Forall (fun m => In (Publish m.1 m.2) evs) more.
Proof.
  induction evs as [| ev evs IH]; intros c.
  - exists []. cbn. rewrite app_nil_r. split_and!; auto.
  - cbn [mqtt_run].
    destruct (mqtt_step_effect c ev) as (m1 & S1 & C1 & F1).
    destruct (mqtt_step c ev) as [c1 l1]. cbn [fst snd] in *.
    destruct (IH c1) as (m2 & S2 & C2 & F2).
    destruct (mqtt_run c1 evs) as [c2 l2]. cbn [fst snd] in *.
    exists (m1 ++ m2). split_and!.
    + rewrite S2, S1, app_assoc. reflexivity.
    + rewrite List.filter_app, !length_app. cbn [List.filter].
      destruct (is_publish ev); cbn [length]; lia.
    + apply Forall_app. split.
      * eapply Forall_impl; [ exact F1 |]. intros m ->. left. reflexivity.
      * eapply Forall_impl; [ exact F2 |]. intros m Hm. right. exact Hm.
Qed.

(** X6. Over any run of callbacks and method calls, the client never drops
    or reorders a message it has handed to the broker library, hands over
    only messages that were published, and accounts for every [publish]:
    each one is either handed over or logged as skipped. *)
Theorem X6_every_publish_is_sent_or_logged
    (c : MQTTClient Payload) (evs : list (mqtt_event Payload)) :
  exists more,
    sent (mqtt_run c evs).1 = sent c ++ more /\
    length more + length (List.filter is_skip (mqtt_run c evs).2) =
      length (List.filter is_publish evs) /\
    Forall (fun m => In (Publish m.1 m.2) evs) more.
Proof. apply mqtt_run_effect. Qed.

End PublisherMore.

Section ReaderMore.
Import Py Backend Scenario Observe.

Lemma reader_iteration_effect (rd : serial_read) (w : World) :
  exists added,
    data_queue (serial_reader_iteration rd w) = data_queue w ++ added /\
    Forall is_dict added /\
    length added <= 1 /\
    csv_file (serial_reader_iteration rd w) = csv_file w /\
    mqtt_client (serial_reader_iteration rd w) = mqtt_client w.
Proof.
  destruct rd as [text | e]; cbn [serial_reader_iteration].
  2: { exists []. cbn. rewrite app_nil_r. split_and!; auto. }
  set (line := strip text).
  destruct (decide (line = "")).
  { exists []. rewrite app_nil_r. split_and!; auto. }
  destruct (startswith line "{") eqn:Hs; cbn [negb orb].
  2: { exists []. cbn. rewrite app_nil_r. split_and!; auto. }
  destruct (endswith line "}"); cbn [negb].
  2: { exists []. cbn. rewrite app_nil_r. split_and!; auto. }
  destruct (Json.loads line) as [data | e] eqn:Hl.
  2: { exists []. cbn. rewrite app_nil_r. split_and!; auto. }
  destruct (loads_brace_dict line data Hs Hl) as [d ->].
  exists [PyDict d]. cbn. split_and!; auto.
  repeat constructor.
Qed.

Lemma reader_loop_effect (reads : list serial_read) :
  forall w,
  exists added,
    data_queue (foldl (fun w rd => serial_reader_iteration rd w) w reads) =
      data_queue w ++ added /\
    Forall is_dict added /\
    length added <= length reads /\
    csv_file (foldl (fun w rd => serial_reader_iteration rd w) w reads) = csv_file w /\
    mqtt_client (foldl (fun w rd => serial_reader_iteration rd w) w reads) = mqtt_client w.
Proof.
  induction reads as [| rd reads IH]; intros w; cbn [foldl].
  - exists []. rewrite app_nil_r. split_and!; auto.
  - destruct (reader_iteration_effect rd w) as (a1 & Q1 & D1 & L1 & C1 & M1).
    destruct (IH (serial_reader_iteration rd w)) as (a2 & Q2 & D2 & L2 & C2 & M2).
    exists (a1 ++ a2). split_and!.
    + rewrite Q2, Q1, app_assoc. reflexivity.
    + apply Forall_app. auto.
    + rewrite length_app. cbn [length]. lia.
    + congruence.
    + congruence.
Qed.

(** X7. Whatever the port gives, [serial_reader] only ever appends to the
    queue, appends JSON objects only, at most one per line read, and leaves
    the file and the broker client alone; if the port cannot be opened it
    enqueues nothing and logs the error once. *)
Theorem X7_serial_reader_appends_objects
    (open : result unit) (reads : list serial_read) (w : World) :
  let w' := serial_reader open reads w in
  (exists added,
     data_queue w' = data_queue w ++ added /\
     Forall is_dict added /\
     length added <= length reads) /\
  csv_file w' = csv_file w /\
  mqtt_client w' = mqtt_client w /\
  (forall e, open = Raise e ->
     data_queue w' = data_queue w /\ log w' = log w ++ [(ERROR, SerialError e)]).
Proof.
  cbv zeta. unfold serial_reader. destruct open as [u | e0].
  - destruct (reader_loop_effect reads (logging [(INFO, SerialConnected)] w))
      as (added & Q & D & L & C & M).
    split_and!; [ eauto | exact C | exact M | discriminate ].
  - split_and!.
    + exists []. cbn. rewrite app_nil_r. split_and!; auto. lia.
    + reflexivity.
    + reflexivity.
    + intros e [= <-]. split; reflexivity.
Qed.

End ReaderMore.

Section FileMore.
Import Py Backend Scenario Observe.

Lemma write_csv_row (utcnow : string) (data : CalibratedReading) (file : csv_store) :
  write_csv utcnow data file = Some (default [] file ++ [row_of utcnow data]).
Proof. reflexivity. Qed.

Lemma row_of_not_header (utcnow : string) (data : CalibratedReading) :
  is_header (row_of utcnow data) = false.
Proof.
  unfold is_header, row_of. cbn [texts_are].
  destruct (String.eqb utcnow "timestamp"); reflexivity.
Qed.

Lemma header_rows_app (rows more : list row) :
  Forall (fun r => is_header r = false) more ->
  length (List.filter is_header (rows ++ more)) = length (List.filter is_header rows).
Proof.
  intros H. rewrite List.filter_app, length_app.
  assert (E : List.filter is_header more = []).
  { induction H as [| r more Hr _ IH]; cbn; [ reflexivity |]. rewrite Hr. exact IH. }
  rewrite E. cbn. lia.
Qed.

(** X8. [write_csv] appends exactly one row and keeps the rows already in
    the file: the row has as many cells as the header has columns, starts
    with the time stamp, and is never a header row, so the number of header
    rows is unchanged; on a missing file it creates a file of that one row,
    without a header. *)
Theorem X8_write_csv_appends_one_data_row
    (utcnow : string) (data : CalibratedReading) (file : csv_store) :
  exists r cells,
    write_csv utcnow data file = Some (default [] file ++ [r]) /\
    r = CStr utcnow :: cells /\
    length r = length header /\
    is_header r = false /\
    header_rows (write_csv utcnow data file) = header_rows file /\
    write_csv utcnow data None = Some [r].
Proof.
  exists (row_of utcnow data). eexists. split_and!.
  - apply write_csv_row.
  - reflexivity.
  - reflexivity.
  - apply row_of_not_header.
  - rewrite write_csv_row. unfold header_rows.
    change (default [] (Some (default [] file ++ [row_of utcnow data])))
      with (default [] file ++ [row_of utcnow data]).
    apply header_rows_app. repeat constructor. apply row_of_not_header.
  - reflexivity.
Qed.

End FileMore.

(* ===================================================================== *)
(** * More on the live processor and on the threads together             *)
(* ===================================================================== *)

Section ProcessorMore.
Import Py Backend Scenario Observe.

(** X9. An iteration that converts the head of the queue writes its row
    whether or not the broker is connected; connected, it hands over the
    reading on the main topic and then the heartbeat on the status topic,
    and logs nothing but the reading; disconnected, it hands over nothing
    and logs two skipped publishes. *)
Theorem X9_iteration_publishes_reading_then_heartbeat
    (hostname utcnow : string) (now : float) (w : World)
    (raw : pyval) (rest : list pyval) (r : CalibratedReading) :
  data_queue w = raw :: rest ->
  convert_values raw = Ok r ->
  exists w',
    data_processor_iteration hostname utcnow now w = Continues w' /\
    csv_file w' = write_csv utcnow r (csv_file w) /\
    connected (mqtt_client w') = connected (mqtt_client w) /\
    if connected (mqtt_client w) then
      sent (mqtt_client w') =
        sent (mqtt_client w) ++
          [(TOPIC, ReadingDoc r);
           (STATUS_TOPIC hostname +:+ "/hb", HeartbeatDoc now "ok")] /\
      log w' = log w ++ [(INFO, Calibrated r)]
    else
      sent (mqtt_client w') = sent (mqtt_client w) /\
      log w' = log w ++ [(INFO, Calibrated r);
                         (WARNING, MqttNotConnectedSkippingPublish);
                         (WARNING, MqttNotConnectedSkippingPublish)].
Proof.
  intros Hq Hr. unfold data_processor_iteration. rewrite Hq, Hr.
  eexists. split; [ reflexivity |].
  unfold world_publish, publish, logging, with_csv, with_queue. cbn.
  destruct (connected (mqtt_client w)) eqn:Hc; cbn; rewrite ?Hc; cbn.
  all: split_and!; try reflexivity; try assumption.
  all: rewrite <- ?app_assoc, ?app_nil_r; reflexivity.
Qed.

Lemma X9_iteration_publishes_witness :
  exists w',
    data_processor_iteration "station" "2024-01-01T00:00:00" 1704067200
      (world_callback (ConnectCallback 0) (put snapshot initial)) = Continues w' /\
    csv_file w' = write_csv "2024-01-01T00:00:00" computed_reading None /\
    connected (mqtt_client w') = true /\
    sent (mqtt_client w') =
      [(TOPIC, ReadingDoc computed_reading);
       ("weather/status/station/hb", HeartbeatDoc 1704067200 "ok")] /\
    log w' = [(INFO, MqttConnected); (INFO, Calibrated computed_reading)].
Proof.
  destruct (X9_iteration_publishes_reading_then_heartbeat
              "station" "2024-01-01T00:00:00" 1704067200%float
              (world_callback (ConnectCallback 0) (put snapshot initial))
              snapshot [] computed_reading)
    as (w' & H1 & H2 & H3 & H4); [ reflexivity | vm_compute; reflexivity |].
  exists w'. cbn in H3, H4. destruct H4 as [H4 H5].
  split_and!; assumption.
Defined.

Lemma iteration_raise (hostname utcnow : string) (now : float) (w : World)
    (raw : pyval) (rest : list pyval) (e : exn) :
  data_queue w = raw :: rest ->
  convert_values raw = Raise e ->
  data_processor_iteration hostname utcnow now w = Dies e (with_queue rest w).
Proof.
  intros Hq Hr. unfold data_processor_iteration. rewrite Hq, Hr. reflexivity.
Qed.

(** X10. A queued snapshot with a channel missing or refused by [int] ends
    the processor thread for good: the iteration that takes it raises,
    the snapshot is gone from the queue, nothing is written, published or
    logged for it, and no later entry is processed however long the loop
    would have run. *)
Theorem X10_unconvertible_entry_ends_processor
    (hostname utcnow : string) (now : float) (clock : list (string * float))
    (w : World) (raw : pyval) (rest : list pyval) :
  data_queue w = raw :: rest ->
  ~ Forall (available raw) channels ->
  exists e,
    convert_values raw = Raise e /\
    data_processor_loop hostname ((utcnow, now) :: clock) w = Dies e (with_queue rest w).
Proof.
  intros Hq Hbad.
  destruct (convert_values raw) as [r | e] eqn:E.
  - exfalso. apply Hbad. exact (convert_values_needs_every_channel raw r E).
  - exists e. split; [ reflexivity |].
    cbn [data_processor_loop]. rewrite (iteration_raise _ _ _ _ _ _ _ Hq E). reflexivity.
Qed.

End ProcessorMore.

Section ThreadsMore.
Import Py Backend Scenario Observe.

Lemma X10_unconvertible_entry_witness :
  exists e,
    convert_values (PyDict [("oxygen", PyNone)]) = Raise e /\
    data_processor_loop "station" [("t1", 1%float); ("t2", 2%float)]
      (with_queue [PyDict [("oxygen", PyNone)]; snapshot] initial) =
      Dies e (with_queue [snapshot] (with_queue [PyDict [("oxygen", PyNone)]; snapshot] initial)).
Proof.
  apply (X10_unconvertible_entry_ends_processor "station" "t1" 1%float [("t2", 2%float)]
           (with_queue [PyDict [("oxygen", PyNone)]; snapshot] initial)
           (PyDict [("oxygen", PyNone)]) [snapshot]).
  - reflexivity.
  - intros H. apply Forall_cons in H as [(raw & s & Hg & Hc) _].
    vm_compute in Hg. injection Hg as <-. discriminate Hc.
Defined.

Lemma iteration_ok (hostname utcnow : string) (now : float) (w : World)
    (raw : pyval) (rest : list pyval) (r : CalibratedReading) :
  data_queue w = raw :: rest ->
  convert_values raw = Ok r ->
  exists w',
    data_processor_iteration hostname utcnow now w = Continues w' /\
    data_queue w' = rest /\
    default [] (csv_file w') = default [] (csv_file w) ++ [row_of utcnow r].
Proof.
  intros Hq Hr.
  destruct (live_processor_takes_head hostname utcnow now w raw rest r Hq Hr)
    as (w' & H1 & H2 & H3).
  exists w'. split_and!; [ exact H1 | exact H2 |]. rewrite H3. reflexivity.
Qed.

Lemma processor_loop_fifo (hostname : string) (clock : list (string * float)) :
  forall (w : World) (readings : list CalibratedReading),
    Forall2 (fun raw r => convert_values raw = Ok r) (data_queue w) readings ->
    length clock = length readings ->
    exists w',
      data_processor_loop hostname clock w = Continues w' /\
      data_queue w' = [] /\
      default [] (csv_file w') =
        default [] (csv_file w) ++ zip_with row_of (clock.*1) readings.
Proof.
  induction clock as [| [utcnow now] clock IH]; intros w readings HF Hlen.
  - destruct readings; [| discriminate Hlen ].
    apply Forall2_nil_inv_r in HF.
    exists w. cbn. rewrite app_nil_r. auto.
  - destruct readings as [| r readings]; [ discriminate Hlen |].
    destruct (data_queue w) as [| raw rest] eqn:Hq; [ inversion HF |].
    apply Forall2_cons in HF as [Hr HF].
    destruct (iteration_ok hostname utcnow now w raw rest r Hq Hr) as (w1 & H1 & Q1 & C1).
    rewrite <- Q1 in HF.
    destruct (IH w1 readings HF ltac:(cbn in Hlen; lia)) as (w' & H' & Q' & C').
    exists w'. cbn [data_processor_loop]. rewrite H1.
    split_and!; [ exact H' | exact Q' |].
    rewrite C', C1, <- app_assoc. reflexivity.
Qed.

(** X11. The live processor serves the queue first in, first out: when
    every queued snapshot converts, as many iterations as there are entries
    empty the queue and append their rows in arrival order, one row per
    entry, each stamped with the clock of its own iteration. *)
Theorem X11_processor_loop_is_fifo
    (hostname : string) (clock : list (string * float))
    (w : World) (readings : list CalibratedReading) :
  Forall2 (fun raw r => convert_values raw = Ok r) (data_queue w) readings ->
  length clock = length readings ->
  exists w',
    data_processor_loop hostname clock w = Continues w' /\
    data_queue w' = [] /\
    default [] (csv_file w') =
      default [] (csv_file w) ++ zip_with row_of (clock.*1) readings.
Proof. apply processor_loop_fifo. Qed.

Lemma X11_processor_loop_is_fifo_witness :
  exists w',
    data_processor_loop "station" [("t1", 1%float); ("t2", 2%float)]
      (with_queue [zero_snapshot; snapshot] initial) = Continues w' /\
    data_queue w' = [] /\
    default [] (csv_file w') = [row_of "t1" zero_reading; row_of "t2" computed_reading].
Proof.
  apply (X11_processor_loop_is_fifo "station" [("t1", 1%float); ("t2", 2%float)]
           (with_queue [zero_snapshot; snapshot] initial) [zero_reading; computed_reading]).
  - repeat constructor; vm_compute; reflexivity.
  - reflexivity.
Defined.

Lemma world_callback_effect (cb : callback) (w : World) :
  data_queue (world_callback cb w) = data_queue w /\
  csv_file (world_callback cb w) = csv_file w.
Proof. destruct cb; split; reflexivity. Qed.

Lemma take_turn_conserves (hostname : string) (w0 : World) (p : Process) (t : turn) :
  conserved w0 p -> conserved w0 (take_turn hostname p t).
Proof.
  intros (enq & per & dro & sta & HQ & HD & HF & HC & HP).
  destruct t as [rd | utcnow now | cb]; cbn [take_turn].
  - destruct (reader_iteration_effect rd (globals p)) as (added & Q & D & _ & C & _).
    exists (enq ++ added), per, dro, sta. cbn [globals processor].
    split_and!.
    + rewrite Q, !app_assoc, HQ, !app_assoc. reflexivity.
    + apply Forall_app. auto.
    + exact HF.
    + rewrite C. exact HC.
    + exact HP.
  - destruct (processor p) as [e |] eqn:Hp.
    { exists enq, per, dro, sta. rewrite Hp. auto. }
    subst dro. cbn [app] in HQ.
    destruct (data_queue (globals p)) as [| raw rest] eqn:Hq.
    { unfold data_processor_iteration. rewrite Hq.
      exists enq, per, [], sta. cbn [globals processor]. rewrite Hq. auto. }
    destruct (convert_values raw) as [r | e] eqn:Hr.
    + destruct (iteration_ok hostname utcnow now (globals p) raw rest r Hq Hr)
        as (w' & H1 & Q1 & C1).
      rewrite H1. exists enq, (per ++ [raw]), [], (sta ++ [(utcnow, r)]).
      cbn [globals processor]. split_and!.
      * rewrite HQ, Q1, <- app_assoc. reflexivity.
      * exact HD.
      * apply Forall2_app; [ exact HF |]. repeat constructor. exact Hr.
      * rewrite C1, HC, fmap_app, <- app_assoc. reflexivity.
      * reflexivity.
    + rewrite (iteration_raise hostname utcnow now (globals p) raw rest e Hq Hr).
      exists enq, per, [raw], sta. cbn [globals processor with_queue data_queue csv_file].
      split_and!; eauto.
  - destruct (world_callback_effect cb (globals p)) as [Q C].
    exists enq, per, dro, sta. cbn [globals processor]. rewrite Q, C. auto.
Qed.

Lemma run_conserves (hostname : string) (w : World) (turns : list turn) :
  conserved (data_processor_start w) (run hostname w turns).
Proof.
  unfold run. induction turns as [| t turns IH] using rev_ind.
  - exists [], [], [], []. cbn. rewrite !app_nil_r. split_and!; auto.
  - rewrite foldl_snoc. apply take_turn_conserves. exact IH.
Qed.

(** X12. However the reader, the processor and the broker callbacks
    interleave, no snapshot is duplicated, reordered or silently lost: the
    snapshots queued at the start and those the reader enqueued are, in
    arrival order, the ones persisted, then the one whose conversion raised
    (if the processor thread died, and only then), then the ones still
    queued; and the rows added to the file are exactly the calibrations of
    the persisted ones, in the same order. *)
Theorem X12_interleaving_conserves_snapshots
    (hostname : string) (w : World) (turns : list turn) :
  let p := run hostname w turns in
  exists (enqueued persisted dropped : list pyval)
         (stamped : list (string * CalibratedReading)),
    data_queue w ++ enqueued = persisted ++ dropped ++ data_queue (globals p) /\
    Forall is_dict enqueued /\
    Forall2 (fun raw sr => convert_values raw = Ok sr.2) persisted stamped /\
    default [] (csv_file (globals p)) =
      default [] (ensure_csv (csv_file w)) ++ ((fun sr => row_of sr.1 sr.2) <$> stamped) /\
    match processor p with
    | None => dropped = []
    | Some e => exists raw, dropped = [raw] /\ convert_values raw = Raise e
    end.
Proof. exact (run_conserves hostname w turns). Qed.

(** X13. Started on a missing file, the process keeps a file whose first
    row is the header and whose other rows are data rows of ten cells,
    whatever the turns: the header is written once and never again. *)
Theorem X13_file_keeps_one_header
    (hostname : string) (w : World) (turns : list turn) :
  csv_file w = None ->
  exists rows,
    csv_file (globals (run hostname w turns)) = Some (header :: rows) /\
    Forall (fun r => is_header r = false /\ length r = length header) rows /\
    header_rows (csv_file (globals (run hostname w turns))) = 1.
Proof.
  intros Hnone.
  destruct (run_conserves hostname w turns) as (enq & per & dro & sta & _ & _ & _ & HC & _).
  cbn [data_processor_start with_csv csv_file] in HC. rewrite Hnone in HC.
  cbn [ensure_csv] in HC.
  destruct (csv_file (globals (run hostname w turns))) as [rows' |]; [| discriminate HC ].
  change (default [] (Some rows')) with rows' in HC.
  change (default [] (Some [header])) with [header] in HC.
  cbn [app] in HC. subst rows'.
  eexists. split; [ reflexivity |].
  assert (HF : Forall (fun r => is_header r = false /\ length r = length header)
                      ((fun sr => row_of sr.1 sr.2) <$> sta)).
  { apply Forall_fmap. apply Forall_forall. intros [stamp r] _.
    split; [ exact (row_of_not_header stamp r) | reflexivity ]. }
  split; [ exact HF |].
  unfold header_rows.
  change (default [] (Some (header :: ((fun sr => row_of sr.1 sr.2) <$> sta))))
    with ([header] ++ ((fun sr => row_of sr.1 sr.2) <$> sta)).
  rewrite header_rows_app; [ reflexivity |].
  eapply Forall_impl; [ exact HF |]. intros r [H _]. exact H.
Qed.

Lemma X13_file_keeps_one_header_witness :
  exists rows,
    csv_file (globals (run "station" initial
                         [ReaderTurn (Received snapshot_line);
                          NetworkTurn (ConnectCallback 0);
                          ProcessorTurn "t1" 1%float;
                          ReaderTurn (Received null_line);
                          ProcessorTurn "t2" 2%float;
                          ProcessorTurn "t3" 3%float])) = Some (header :: rows) /\
    Forall (fun r => is_header r = false /\ length r = length header) rows /\
    header_rows (csv_file (globals (run "station" initial
                         [ReaderTurn (Received snapshot_line);
                          NetworkTurn (ConnectCallback 0);
                          ProcessorTurn "t1" 1%float;
                          ReaderTurn (Received null_line);
                          ProcessorTurn "t2" 2%float;
                          ProcessorTurn "t3" 3%float]))) = 1.
Proof. apply X13_file_keeps_one_header. reflexivity. Defined.

End ThreadsMore.

(* ===================================================================== *)
(** * More on the simulated pipeline                                     *)
(* ===================================================================== *)

Section SensorsMore.
Import Py Sim Observe.

Lemma read_loop_fst (name : string) (read_func : nat -> attempt) (i n : nat) :
  (read_loop name read_func i (S n)).1 =
    match read_func i with
    | Returns (Some value) => Some value
    | _ => (read_loop name read_func (S i) n).1
    end.
Proof.
  cbn [read_loop]. destruct (read_func i) as [[x |] | e]; try reflexivity.
  destruct (read_loop name read_func (S i) n). reflexivity.
Qed.

Lemma read_loop_none (name : string) (read_func : nat -> attempt) (n : nat) :
  forall i,
    (read_loop name read_func i n).1 = None <->
    forall k, i <= k < i + n -> forall x, read_func k <> Returns (Some x).
Proof.
  induction n as [| n IH]; intros i.
  - cbn. split; [ intros _ k Hk; lia | reflexivity ].
  - rewrite read_loop_fst. split.
    + intros H k Hk x E.
      destruct (Nat.eq_dec k i) as [-> | Hne].
      * rewrite E in H. discriminate H.
      * assert (Hn : (read_loop name read_func (S i) n).1 = None)
          by (destruct (read_func i) as [[x0 |] | e]; [ discriminate H | exact H | exact H ]).
        apply (proj1 (IH (S i)) Hn k ltac:(lia) x E).
    + intros H.
      assert (Hn : (read_loop name read_func (S i) n).1 = None)
        by (apply IH; intros k Hk; apply H; lia).
      destruct (read_func i) as [[x0 |] | e] eqn:E; [| exact Hn | exact Hn ].
      exfalso. apply (H i ltac:(lia) x0). exact E.
Qed.

Lemma read_loop_some (name : string) (read_func : nat -> attempt) (n : nat) :
  forall i x,
    (read_loop name read_func i n).1 = Some x ->
    exists k, i <= k < i + n /\ read_func k = Returns (Some x) /\
              forall j, i <= j < k -> forall y, read_func j <> Returns (Some y).
Proof.
  induction n as [| n IH]; intros i x H.
  - discriminate H.
  - rewrite read_loop_fst in H.
    destruct (read_func i) as [[x0 |] | e] eqn:E.
    + injection H as <-. exists i. split; [ lia |]. split; [ exact E | intros; lia ].
    + destruct (IH (S i) x H) as (k & Hk & Ek & Hj).
      exists k. split; [ lia |]. split; [ exact Ek |].
      intros j Hj' y. destruct (Nat.eq_dec j i) as [-> | Hne].
      * rewrite E. discriminate.
      * apply Hj. lia.
    + destruct (IH (S i) x H) as (k & Hk & Ek & Hj).
      exists k. split; [ lia |]. split; [ exact Ek |].
      intros j Hj' y. destruct (Nat.eq_dec j i) as [-> | Hne].
      * rewrite E. discriminate.
      * apply Hj. lia.
Qed.

Lemma read_loop_failure_logged (name : string) (read_func : nat -> attempt) (n : nat) :
  forall i,
    In (FailedAfterRetries name MAX_RETRIES) (read_loop name read_func i n).2 <->
    (read_loop name read_func i n).1 = None.
Proof.
  induction n as [| n IH]; intros i.
  - cbn. tauto.
  - cbn [read_loop]. destruct (read_func i) as [[x0 |] | e].
    + cbn. split; [ intros [] | discriminate ].
    + apply IH.
    + specialize (IH (S i)). destruct (read_loop name read_func (S i) n) as [v l].
      cbn [fst snd In] in *. rewrite <- IH. split; [| tauto ].
      intros [H | H]; [ discriminate H | exact H ].
Qed.

Lemma read_loop_ext (name : string) (read_func other : nat -> attempt) (n : nat) :
  forall i,
    (forall k, i <= k < i + n -> other k = read_func k) ->
    read_loop name other i n = read_loop name read_func i n.
Proof.
  induction n as [| n IH]; intros i H; [ reflexivity |].
  cbn [read_loop]. rewrite (H i) by lia. rewrite (IH (S i)) by (intros; apply H; lia).
  reflexivity.
Qed.

(** X14. [Sensor.read] calls the read function at most three times and
    returns the first value it gets: the result is [None] exactly when none
    of the first three calls returns a value (each returned [None] or
    raised), the failure after the retries is logged exactly then, and what
    later calls would do never matters. *)
Theorem X14_sensor_read_bounded_retry (name : string) (read_func : nat -> attempt) :
  ((read name read_func).1 = None <->
     forall i, i < MAX_RETRIES -> forall x, read_func i <> Returns (Some x)) /\
  (forall x, (read name read_func).1 = Some x ->
     exists i, i < MAX_RETRIES /\ read_func i = Returns (Some x) /\
               forall j, j < i -> forall y, read_func j <> Returns (Some y)) /\
  (In (FailedAfterRetries name MAX_RETRIES) (read name read_func).2 <->
     (read name read_func).1 = None) /\
  (forall other : nat -> attempt,
     (forall i, i < MAX_RETRIES -> other i = read_func i) ->
     read name other = read name read_func).
Proof.
  unfold read. split_and!.
  - rewrite read_loop_none. split; intros H k Hk; apply H; lia.
  - intros x H. destruct (read_loop_some _ _ _ _ _ H) as (k & Hk & Ek & Hj).
    exists k. split; [ lia |]. split; [ exact Ek | intros j Hj'; apply Hj; lia ].
  - apply read_loop_failure_logged.
  - intros other H. apply read_loop_ext. intros k Hk. apply H. lia.
Qed.

End SensorsMore.

Section SimulatedMore.
Import Py Sim Observe.

Ltac name_reads read_funcs :=
  generalize (read "Temperature (°C)" (read_funcs "Temperature (°C)"));
  generalize (read "Humidity (%)" (read_funcs "Humidity (%)"));
  generalize (read "CO2 (ppm)" (read_funcs "CO2 (ppm)"));
  generalize (read "Oxygen (O2 %)" (read_funcs "Oxygen (O2 %)"));
  generalize (read "UV Index" (read_funcs "UV Index"));
  generalize (read "Solar Radiation (W/m²)" (read_funcs "Solar Radiation (W/m²)"));
  generalize (read "Air Quality (AQI)" (read_funcs "Air Quality (AQI)"));
  generalize (read "GSR" (read_funcs "GSR"));
  generalize (read "Atmospheric Pressure (hPa)" (read_funcs "Atmospheric Pressure (hPa)"));
  intros [v9 l9] [v8 l8] [v7 l7] [v6 l6] [v5 l5] [v4 l4] [v3 l3] [v2 l2] [v1 l1].

Lemma read_all_sensors (read_funcs : string -> nat -> attempt) :
  (read_all sensors read_funcs []).1 = snapshot_of read_funcs.
Proof.
  unfold snapshot_of, sensors. cbn [read_all fmap list_fmap].
  name_reads read_funcs. vm_compute. reflexivity.
Qed.

Lemma snapshot_of_complete (read_funcs : string -> nat -> attempt) :
  complete (snapshot_of read_funcs).
Proof.
  unfold complete, snapshot_of. rewrite <- list_fmap_compose.
  apply list_fmap_id.
Qed.

Lemma values_of_snapshot_of (now : string) (read_funcs : string -> nat -> attempt) :
  values_of (snapshot_of read_funcs) sensors = Ok (tail (sim_row_of now read_funcs)).
Proof.
  unfold snapshot_of, sim_row_of, sensors. cbn [fmap list_fmap tail].
  name_reads read_funcs. vm_compute. reflexivity.
Qed.

Lemma sensor_reader_iteration_effect
    (now : string) (read_funcs : string -> nat -> attempt) (w : World) :
  data_queue (sensor_reader_iteration now read_funcs w) =
    data_queue w ++ [(now, snapshot_of read_funcs)] /\
  csv_file (sensor_reader_iteration now read_funcs w) = csv_file w /\
  published (sensor_reader_iteration now read_funcs w) = published w /\
  console (sensor_reader_iteration now read_funcs w) = console w.
Proof.
  unfold sensor_reader_iteration.
  pose proof (read_all_sensors read_funcs) as H.
  destruct (read_all sensors read_funcs []) as [snap l]. cbn [fst] in H. subst snap.
  split_and!; reflexivity.
Qed.

(** X15. Each tick of the sensor reader appends exactly one entry to the
    queue: the time stamp with a snapshot that has the nine sensor names as
    its keys, in order, each with what its [read] returned; a sensor that
    fails gives [None] under its name and does not stop the others.  The
    file, the published messages and the console are not touched. *)
Theorem X15_tick_enqueues_complete_snapshot
    (now : string) (read_funcs : string -> nat -> attempt) (w : World) :
  let w' := sensor_reader_iteration now read_funcs w in
  exists snap,
    data_queue w' = data_queue w ++ [(now, snap)] /\
    snap.*1 = sensors /\
    (forall name, In name sensors ->
       dict_lookup name snap = Some (read name (read_funcs name)).1) /\
    csv_file w' = csv_file w /\
    published w' = published w /\
    console w' = console w.
Proof.
  cbv zeta.
  destruct (sensor_reader_iteration_effect now read_funcs w) as (Q & C & P & K).
  exists (snapshot_of read_funcs). split_and!; try assumption.
  - apply snapshot_of_complete.
  - intros name Hin. unfold sensors in Hin. cbn [In] in Hin.
    unfold snapshot_of, sensors. cbn [fmap list_fmap].
    repeat (destruct Hin as [<- | Hin];
            [ name_reads read_funcs; vm_compute; reflexivity |]).
    contradiction.
Qed.

Lemma sensor_reader_effect (ticks : list (string * (string -> nat -> attempt))) :
  forall w : World,
    data_queue (sensor_reader ticks w) =
      data_queue w ++ ((fun tick => (tick.1, snapshot_of tick.2)) <$> ticks) /\
    csv_file (sensor_reader ticks w) = csv_file w /\
    published (sensor_reader ticks w) = published w /\
    console (sensor_reader ticks w) = console w.
Proof.
  unfold sensor_reader.
  induction ticks as [| [now rf] ticks IH]; intros w; cbn [foldl fmap list_fmap].
  - rewrite app_nil_r. split_and!; reflexivity.
  - destruct (sensor_reader_iteration_effect now rf w) as (Q & C & P & K).
    destruct (IH (sensor_reader_iteration now rf w)) as (Q' & C' & P' & K').
    cbn [fst snd] in *.
    split_and!; [ rewrite Q', Q, <- app_assoc; reflexivity | congruence .. ].
Qed.

(** X16. However many ticks have queued up, and whatever was queued before
    them, one processor iteration empties the queue and appends a single
    row, that of the last tick; it publishes the snapshot of the last tick
    and prints its table.  The readings of the earlier ticks are
    discarded. *)
Theorem X16_burst_is_coalesced_to_last_tick
    (ticks : list (string * (string -> nat -> attempt)))
    (now : string) (read_funcs : string -> nat -> attempt) (w : World) :
  let w1 := sensor_reader (ticks ++ [(now, read_funcs)]) w in
  data_processor_iteration w1 =
    Continues
      {| data_queue := [];
         csv_file := Some (default [] (csv_file w) ++ [sim_row_of now read_funcs]);
         published := published w ++ [(TOPIC, snapshot_of read_funcs)];
         console := console w ++ Banner now :: table (snapshot_of read_funcs);
         log := log w1 |}.
Proof.
  cbv zeta.
  destruct (sensor_reader_effect (ticks ++ [(now, read_funcs)]) w) as (Q & C & P & K).
  rewrite fmap_app, app_assoc in Q. cbn [fmap list_fmap fst snd] in Q.
  rewrite (simulated_processor_takes_last _ _ _ _ _ Q (values_of_snapshot_of now read_funcs)).
  rewrite C, P, K. reflexivity.
Qed.

End SimulatedMore.

Section ConsoleMore.
Import Py Sim Observe.

Lemma error_iff_none (name : string) (v : option float) :
  check_threshold name v = "ERROR" <-> v = None.
Proof.
  pose proof (check_threshold_cases name v) as H. destruct v as [x |].
  - split; [| discriminate ]. destruct H as [H | H]; rewrite H; discriminate.
  - split; auto.
Qed.

Lemma units_of_sensors :
  Forall (fun name => is_Some (UNITS !! name)) sensors.
Proof. unfold sensors. repeat constructor; vm_compute; eauto. Qed.

(** X17. For the snapshot of a tick the processor prints nine lines, one
    per sensor in the order of the sensor list, each with the reading, the
    unit the table has for that sensor (every sensor has one) and the
    status; the status is ERROR exactly on the lines of the sensors that
    gave no value. *)
Theorem X17_console_table (read_funcs : string -> nat -> attempt) :
  Forall2
    (fun name line =>
       exists unit,
         UNITS !! name = Some unit /\
         line = Reading name (read name (read_funcs name)).1 unit
                        (check_threshold name (read name (read_funcs name)).1))
    sensors (table (snapshot_of read_funcs)) /\
  (forall name v unit status,
     In (Reading name v unit status) (table (snapshot_of read_funcs)) ->
     (status = "ERROR" <-> v = None)).
Proof.
  split.
  - unfold table, snapshot_of. rewrite <- list_fmap_compose.
    apply Forall2_fmap_r. apply Forall_Forall2_diag.
    eapply Forall_impl; [ exact units_of_sensors |].
    intros name [unit Hu]. exists unit. cbn. rewrite Hu. split; reflexivity.
  - intros name v unit status Hin.
    unfold table, snapshot_of in Hin. rewrite <- list_fmap_compose in Hin.
    apply list_elem_of_In, list_elem_of_fmap in Hin as (n & E & _).
    cbn in E. injection E as -> -> -> ->. apply error_iff_none.
Qed.

End ConsoleMore.

Section SimulatedThreads.
Import Py Sim Observe.

Lemma complete_values_of (snap : snapshot) :
  complete snap -> exists cells, values_of snap sensors = Ok (CValue <$> cells) /\ length cells = 9.
Proof.
  unfold complete, sensors. intros H.
  do 9 (destruct snap as [| [? ?] snap]; [ discriminate H |]).
  destruct snap; [| discriminate H ].
  cbn in H. injection H as -> -> -> -> -> -> -> -> ->.
  eexists [_; _; _; _; _; _; _; _; _]. split; [ vm_compute | ]; reflexivity.
Qed.

Lemma sim_data_row_not_header (timestamp : string) (cells : list (option float)) :
  length cells = 9 -> sim_is_header (CStr timestamp :: (CValue <$> cells)) = false.
Proof.
  destruct cells as [| c cells]; [ discriminate |]. intros _.
  unfold sim_is_header, sensors. cbn [sim_texts_are fmap list_fmap].
  destruct (String.eqb timestamp "Timestamp"); reflexivity.
Qed.

Lemma sim_header_rows_snoc (rows : list row) (r : row) :
  sim_is_header r = false ->
  length (List.filter sim_is_header (rows ++ [r])) = length (List.filter sim_is_header rows).
Proof.
  intros H. rewrite List.filter_app, length_app. cbn. rewrite H. cbn. lia.
Qed.

Lemma sim_iteration_complete (w : World) :
  Forall (fun entry => complete entry.2) (data_queue w) ->
  exists w',
    data_processor_iteration w = Continues w' /\
    data_queue w' = [] /\
    sim_header_rows (csv_file w') = sim_header_rows (csv_file w) /\
    length (default [] (csv_file w')) <= S (length (default [] (csv_file w))).
Proof.
  intros HF. unfold data_processor_iteration.
  destruct (data_queue w) as [| e q] eqn:Hq using rev_ind.
  - exists w. cbn. rewrite Hq. auto.
  - clear IHq. rewrite last_snoc. destruct e as [timestamp latest_data].
    rewrite Forall_app, Forall_singleton in HF. destruct HF as [_ HF]. cbn in HF.
    destruct (complete_values_of latest_data HF) as (cells & Hv & Hlen).
    rewrite Hv. eexists. split; [ reflexivity |]. cbn [data_queue csv_file].
    split_and!.
    + reflexivity.
    + unfold sim_header_rows.
      change (default [] (Some (?x))) with x.
      apply sim_header_rows_snoc. apply sim_data_row_not_header. exact Hlen.
    + change (default [] (Some (?x))) with x. rewrite length_app. cbn. lia.
Qed.

Lemma sim_run_complete (turns : list turn) :
  forall w : World,
    Forall (fun entry => complete entry.2) (data_queue w) ->
    exists w',
      run turns w = Continues w' /\
      Forall (fun entry => complete entry.2) (data_queue w') /\
      sim_header_rows (csv_file w') = sim_header_rows (csv_file w) /\
      length (default [] (csv_file w')) <=
        length (default [] (csv_file w)) + length (List.filter is_processor_turn turns).
Proof.
  induction turns as [| t turns IH]; intros w HF.
  - exists w. cbn. split_and!; auto. lia.
  - destruct t as [now read_funcs |]; cbn [run List.filter is_processor_turn].
    + destruct (sensor_reader_iteration_effect now read_funcs w) as (Q & C & _ & _).
      destruct (IH (sensor_reader_iteration now read_funcs w)) as (w' & R & F & H & L).
      { rewrite Q. apply Forall_app. split; [ exact HF |].
        apply Forall_singleton. apply snapshot_of_complete. }
      exists w'. rewrite C in H, L. auto.
    + destruct (sim_iteration_complete w HF) as (w1 & R1 & Q1 & H1 & L1).
      rewrite R1.
      destruct (IH w1) as (w' & R & F & H & L).
      { rewrite Q1. constructor. }
      exists w'. split_and!; [ exact R | exact F | congruence |].
      cbn [length]. lia.
Qed.

(** X18. Started on a queue of complete snapshots (the empty queue for
    one), the two threads of the simulated pipeline can take turns in any
    order and the processor never raises: every snapshot the reader makes
    has all nine sensor names, so the row can always be built.  The file
    gains at most one row per processor turn, and never a header row. *)
Theorem X18_simulated_processor_never_raises (turns : list turn) (w : World) :
  Forall (fun entry => complete entry.2) (data_queue w) ->
  exists w',
    run turns w = Continues w' /\
    Forall (fun entry => complete entry.2) (data_queue w') /\
    sim_header_rows (csv_file w') = sim_header_rows (csv_file w) /\
    length (default [] (csv_file w')) <=
      length (default [] (csv_file w)) + length (List.filter is_processor_turn turns).
Proof. apply sim_run_complete. Qed.

End SimulatedThreads.

Section SimulatedWitnesses.
Import Py Sim Scenario Observe.

Lemma X18_simulated_processor_witness :
  exists w',
    run [ReaderTurn "10:00:02" (fun _ _ => Raises ValueError);
         ProcessorTurn;
         ProcessorTurn;
         ReaderTurn "10:00:03" (fun _ _ => Returns (Some 3%float))] sim_two_queued =
      Continues w' /\
    Forall (fun entry => complete entry.2) (data_queue w') /\
    sim_header_rows (csv_file w') = sim_header_rows (csv_file sim_two_queued) /\
    length (default [] (csv_file w')) <= length (default [] (csv_file sim_two_queued)) + 2.
Proof.
  apply (X18_simulated_processor_never_raises
           [ReaderTurn "10:00:02" (fun _ _ => Raises ValueError);
            ProcessorTurn;
            ProcessorTurn;
            ReaderTurn "10:00:03" (fun _ _ => Returns (Some 3%float))] sim_two_queued).
  repeat constructor.
Defined.

Lemma thresholds_values (name : string) (limit : Z) :
  THRESHOLDS !! name = Some limit -> limit = 30%Z \/ limit = 1000%Z \/ limit = 200%Z.
Proof.
  unfold THRESHOLDS. intros H.
  apply lookup_insert_Some in H as [[_ <-] | [_ H]]; [ tauto |].
  apply lookup_insert_Some in H as [[_ <-] | [_ H]]; [ tauto |].
  apply lookup_singleton_Some in H as [_ <-]. tauto.
Qed.

(** X19. The threshold comparison is strict and silent on odd values: a
    reading equal to its limit is Normal, a NaN reading is Normal, an
    infinite reading is ALERT; and a name without an entry in the table is
    Normal whatever the reading. *)
Theorem X19_threshold_edges (sensor_name : string) (limit : Z) :
  THRESHOLDS !! sensor_name = Some limit ->
  check_threshold sensor_name (Some (float_of_Z limit)) = "Normal" /\
  check_threshold sensor_name (Some nan) = "Normal" /\
  check_threshold sensor_name (Some infinity) = "ALERT" /\
  (forall (other : string) (v : float),
     THRESHOLDS !! other = None -> check_threshold other (Some v) = "Normal").
Proof.
  intros H. unfold check_threshold. rewrite H.
  split_and!.
  1-3: destruct (thresholds_values sensor_name limit H) as [-> | [-> | ->]];
       vm_compute; reflexivity.
  intros other v ->. reflexivity.
Qed.

Lemma X19_threshold_edges_witness :
  check_threshold "CO2 (ppm)" (Some 1000%float) = "Normal" /\
  check_threshold "CO2 (ppm)" (Some nan) = "Normal" /\
  check_threshold "CO2 (ppm)" (Some infinity) = "ALERT".
Proof.
  destruct (X19_threshold_edges "CO2 (ppm)" 1000) as (H1 & H2 & H3 & _).
  - vm_compute. reflexivity.
  - split_and!; [ exact H1 | exact H2 | exact H3 ].
Defined.

End SimulatedWitnesses.

Section EndToEnd.
Import Py Observe.

(** X20. From an empty queue, a line that passes the brace test, decodes
    and converts is persisted by the next processor turn as the row of its
    calibration, stamped with the clock of that turn, after the header if
    the file was missing; the queue is empty again. *)
Theorem X20_line_read_is_row_written
    (hostname text utcnow : string) (now : float) (w : Backend.World)
    (data : pyval) (r : Backend.CalibratedReading) :
  Backend.data_queue w = [] ->
  startswith (strip text) "{" = true ->
  endswith (strip text) "}" = true ->
  Json.loads (strip text) = Ok data ->
  Backend.convert_values data = Ok r ->
  let p := Backend.run hostname w
             [Backend.ReaderTurn (Backend.Received text);
              Backend.ProcessorTurn utcnow now] in
  Backend.processor p = None /\
  Backend.data_queue (Backend.globals p) = [] /\
  Backend.csv_file (Backend.globals p) =
    Some (default [] (Backend.ensure_csv (Backend.csv_file w)) ++ [row_of utcnow r]).
Proof.
  intros Hq Hs He Hl Hr. cbv zeta.
  unfold Backend.run. cbn [foldl Backend.take_turn Backend.globals Backend.processor].
  assert (Hread : Backend.serial_reader_iteration (Backend.Received text)
                    (Backend.data_processor_start w) =
                  Backend.put data (Backend.data_processor_start w)).
  { unfold Backend.serial_reader_iteration.
    destruct (decide (strip text = "")) as [E | _].
    - rewrite E in Hs. discriminate Hs.
    - rewrite Hs, He, Hl. reflexivity. }
  rewrite Hread.
  destruct (live_processor_takes_head hostname utcnow now
              (Backend.put data (Backend.data_processor_start w)) data [] r)
    as (w' & H1 & H2 & H3).
  { cbn. rewrite Hq. reflexivity. }
  { exact Hr. }
  rewrite H1. cbn [Backend.globals Backend.processor].
  split_and!; [ reflexivity | exact H2 |].
  rewrite H3. reflexivity.
Qed.

Lemma X20_line_read_is_row_written_witness :
  let p := Backend.run "station" Scenario.initial
             [Backend.ReaderTurn (Backend.Received Scenario.snapshot_line);
              Backend.ProcessorTurn "2024-01-01T00:00:00" 1704067200%float] in
  Backend.processor p = None /\
  Backend.data_queue (Backend.globals p) = [] /\
  Backend.csv_file (Backend.globals p) =
    Some ([Backend.header] ++ [row_of "2024-01-01T00:00:00" Scenario.computed_reading]).
Proof.
  apply (X20_line_read_is_row_written "station" Scenario.snapshot_line
           "2024-01-01T00:00:00" 1704067200%float Scenario.initial
           Scenario.snapshot Scenario.computed_reading);
    vm_compute; reflexivity.
Defined.

(** X21. In the simulated pipeline, with the file created by the main
    block on a missing path, the file holds exactly one header row after
    any turns of the two threads. *)
Theorem X21_simulated_file_keeps_one_header (turns : list Sim.turn) (w : Sim.World) :
  Sim.csv_file w = None ->
  Forall (fun entry => complete entry.2) (Sim.data_queue w) ->
  exists w',
    Sim.run turns
      {| Sim.data_queue := Sim.data_queue w;
         Sim.csv_file := Sim.create_csv (Sim.csv_file w);
         Sim.published := Sim.published w;
         Sim.console := Sim.console w;
         Sim.log := Sim.log w |} = Sim.Continues w' /\
    sim_header_rows (Sim.csv_file w') = 1.
Proof.
  intros Hnone HF.
  destruct (sim_run_complete turns
              {| Sim.data_queue := Sim.data_queue w;
                 Sim.csv_file := Sim.create_csv (Sim.csv_file w);
                 Sim.published := Sim.published w;
                 Sim.console := Sim.console w;
                 Sim.log := Sim.log w |} HF) as (w' & R & _ & H & _).
  exists w'. split; [ exact R |]. rewrite H. cbn [Sim.csv_file]. rewrite Hnone. reflexivity.
Qed.

Lemma X21_simulated_file_witness :
  exists w',
    Sim.run [Sim.ReaderTurn "10:00:00" (fun _ _ => Sim.Returns (Some 1%float));
             Sim.ProcessorTurn;
             Sim.ProcessorTurn]
      {| Sim.data_queue := [];
         Sim.csv_file := Sim.create_csv None;
         Sim.published := [];
         Sim.console := [];
         Sim.log := [] |} = Sim.Continues w' /\
    sim_header_rows (Sim.csv_file w') = 1.
Proof.
  apply (X21_simulated_file_keeps_one_header
           [Sim.ReaderTurn "10:00:00" (fun _ _ => Sim.Returns (Some 1%float));
            Sim.ProcessorTurn;
            Sim.ProcessorTurn]
           {| Sim.data_queue := []; Sim.csv_file := None; Sim.published := [];
              Sim.console := []; Sim.log := [] |}).
  - reflexivity.
  - constructor.
Defined.

End EndToEnd.
